(** * react-declare-form: the form stores and the submit snapshot

    A shallow embedding of the hooks of react-declare-form
    (use-state.ts, use-error.ts, use-required.ts, use-loading.ts,
    use-mounting.ts), of the wrapper that seeds initial state (context.tsx)
    and of the [Form] component's [onButtonClick] (index.tsx), followed by
    the properties of the specification that concern them.

    A JavaScript object used as a dictionary is described by its own
    properties, a finite map with string keys, and is read as a plain
    object: a key that is not an own property is looked up in
    [Object.prototype]. Properties defined by a spread or a computed key of
    an object literal are own properties whatever the key; an assignment
    [o[key] = v] goes through the [__proto__] accessor of
    [Object.prototype]. A [useReducer] store is its current value;
    [dispatch a] replaces the value [s] by [reducer s a], and the dispatches
    of one callback are applied in program order. *)

From stdpp Require Import base strings gmap list.

Open Scope string_scope.

(** ** JavaScript values

    [ComponentState] and [ComponentMeta] are [any]. The stores never look
    inside such a value: they copy it, test its truthiness ([!!v]) and
    compare it with [Object.is] (the dependency list of [useEffect]). An
    object is therefore represented by its reference. Numbers are the
    integers, with [NaN] apart. [VBuiltin m] is the built-in object that
    every plain object inherits under the name [m] from [Object.prototype]:
    a function, and for [__proto__] the prototype object itself. *)

Inductive JsVal : Type :=
  | VUndefined
  | VNull
  | VBool (b : bool)
  | VNum (z : Z)
  | VNaN
  | VStr (s : string)
  | VObj (ref : nat)
  | VBuiltin (member : string).

(** [!!v] *)
Definition truthy (v : JsVal) : bool :=
  match v with
  | VUndefined | VNull | VNaN => false
  | VBool b => b
  | VNum z => negb (Z.eqb z 0)
  | VStr s => negb (String.eqb s "")
  | VObj _ | VBuiltin _ => true
  end.

(** [Object.is a b], objects compared by reference. *)
Definition Object_is (a b : JsVal) : bool :=
  match a, b with
  | VUndefined, VUndefined => true
  | VNull, VNull => true
  | VBool x, VBool y => Bool.eqb x y
  | VNum x, VNum y => Z.eqb x y
  | VNaN, VNaN => true
  | VStr x, VStr y => String.eqb x y
  | VObj x, VObj y => Nat.eqb x y
  | VBuiltin x, VBuiltin y => String.eqb x y
  | _, _ => false
  end.

(** A dictionary object [{ [key: string]: any }]. *)
Abbreviation Dict := (gmap string JsVal).

(** The names under which [Object.prototype] has a member. *)
Definition objectPrototypeMembers : list string :=
  ["constructor"; "hasOwnProperty"; "isPrototypeOf"; "propertyIsEnumerable";
   "toLocaleString"; "toString"; "valueOf"; "__defineGetter__";
   "__defineSetter__"; "__lookupGetter__"; "__lookupSetter__"; "__proto__"].

(** What a plain object gives at a key that is not an own property. *)
Definition inherited (key : string) : JsVal :=
  if bool_decide (key ∈ objectPrototypeMembers) then VBuiltin key
  else VUndefined.

(** [o[key]] for a dictionary of values: the own property, else the
    inherited member, else [undefined]. *)
Definition prop (o : Dict) (key : string) : JsVal :=
  match o !! key with
  | Some v => v
  | None => inherited key
  end.

(** [o[key]] for a dictionary of anything: an own entry, a member inherited
    from [Object.prototype], or [undefined]. *)
Inductive Read (A : Type) : Type :=
  | Own (a : A)
  | Inherited (v : JsVal)
  | Undefined.

Arguments Own {A} a.
Arguments Inherited {A} v.
Arguments Undefined {A}.

Definition read {A : Type} (o : gmap string A) (key : string) : Read A :=
  match o !! key with
  | Some a => Own a
  | None =>
      match inherited key with
      | VUndefined => Undefined
      | v => Inherited v
      end
  end.

#[global] Instance Read_fmap : FMap Read :=
  fun A B (f : A → B) (r : Read A) =>
    match r with
    | Own a => Own (f a)
    | Inherited v => Inherited v
    | Undefined => Undefined
    end.

(** The assignment [object[key] = v]. For every key but [__proto__] it
    creates or updates an own property. For [__proto__] on an object that
    has no own property of that name, the accessor of [Object.prototype]
    takes the value and no property is created (an object or [null] value
    becomes the prototype of [object]; the own properties are the same
    either way). *)
Definition assign {A : Type} (object : gmap string A) (key : string) (v : A)
    : gmap string A :=
  if decide (key = "__proto__") then
    match object !! key with
    | Some _ => <[key := v]> object
    | None => object
    end
  else <[key := v]> object.

(** [Object.keys(o)]: the keys of [o], each once. The order in which the
    map lists them is not the insertion order of JavaScript; the results
    below hold for every order. *)
Definition Object_keys {A : Type} (o : gmap string A) : list string :=
  (map_to_list o).*1.

(** ** use-state.ts *)

Module UseState.

Inductive ActionType : Type :=
  | SET_INITIAL_STATE
  | SET_INITIAL_META
  | SET_FORM_STATE
  | SET_FORM_META
  | REMOVE_FORM_STATE
  | REMOVE_FORM_META
  | OTHER.

(** An omitted [state] or [meta] reads as [undefined]. *)
Record ReducerAction : Type := mkAction {
  type : ActionType;
  stateKey : string;
  state : JsVal;
  meta : JsVal
}.

Record FormState : Type := mkFormState {
  formState : Dict;
  displayState : Dict;
  formMeta : Dict;
  displayMeta : Dict;
  stateChanged : bool
}.

(** The callback of the two [reduce] calls of a removal:
    [if (key !== action.stateKey) object[key] = source[key]; return object]. *)
Definition copyUnless (source : Dict) (removed : string)
    (object : Dict) (key : string) : Dict :=
  if decide (key ≠ removed) then assign object key (prop source key)
  else object.

(** [Object.keys(source).reduce(callback, acc)] *)
Definition rebuild (source : Dict) (removed : string) (acc : Dict) : Dict :=
  foldl (copyUnless source removed) acc (Object_keys source).

(** The reducer. In the two removal cases both properties of the result
    are built by reducing into the one accumulator ([fs], respectively
    [fm]) created at the top of the call: the first [reduce] fills it and
    returns it, the second one receives the filled object, writes into it
    again and returns the same object, so both properties of the returned
    state are that object after the second pass. *)
Definition reducer (s : FormState) (action : ReducerAction) : FormState :=
  let fs : Dict := ∅ in
  let fm : Dict := ∅ in
  match type action with
  | SET_INITIAL_STATE =>
      {| formState := formState s;
         displayState := <[stateKey action := state action]> (displayState s);
         formMeta := formMeta s;
         displayMeta := displayMeta s;
         stateChanged := false |}
  | SET_INITIAL_META =>
      {| formState := formState s;
         displayState := displayState s;
         formMeta := formMeta s;
         displayMeta := <[stateKey action := meta action]> (displayMeta s);
         stateChanged := false |}
  | SET_FORM_STATE =>
      {| formState := <[stateKey action := state action]> (formState s);
         displayState := <[stateKey action := state action]> (displayState s);
         formMeta := formMeta s;
         displayMeta := displayMeta s;
         stateChanged := true |}
  | SET_FORM_META =>
      {| formState := formState s;
         displayState := displayState s;
         formMeta := <[stateKey action := meta action]> (formMeta s);
         displayMeta := <[stateKey action := meta action]> (displayMeta s);
         stateChanged := true |}
  | REMOVE_FORM_STATE =>
      let fs1 := rebuild (displayState s) (stateKey action) fs in
      let fs2 := rebuild (displayState s) (stateKey action) fs1 in
      {| formState := fs2;
         displayState := fs2;
         formMeta := formMeta s;
         displayMeta := displayMeta s;
         stateChanged := true |}
  | REMOVE_FORM_META =>
      let fm1 := rebuild (displayMeta s) (stateKey action) fm in
      let fm2 := rebuild (displayMeta s) (stateKey action) fm1 in
      {| formState := formState s;
         displayState := displayState s;
         formMeta := fm2;
         displayMeta := fm2;
         stateChanged := true |}
  | OTHER => s
  end.

(** The store of [useFormState] before any dispatch. *)
Definition initialState : FormState :=
  {| formState := ∅; displayState := ∅; formMeta := ∅; displayMeta := ∅;
     stateChanged := false |}.

Definition dispatch (action : ReducerAction) (s : FormState) : FormState :=
  reducer s action.

Definition getComponentState (s : FormState) (key : string) : JsVal :=
  prop (displayState s) key.

Definition getFormState (s : FormState) : Dict := displayState s.

Definition getComponentMeta (s : FormState) (key : string) : JsVal :=
  prop (displayMeta s) key.

Definition getFormMeta (s : FormState) : Dict := displayMeta s.

Definition setFormState (key : string) (st mt : JsVal)
    (s : FormState) : FormState :=
  let s1 :=
    if truthy st then dispatch (mkAction SET_FORM_STATE key st VUndefined) s
    else s in
  if truthy mt then dispatch (mkAction SET_FORM_META key VUndefined mt) s1
  else s1.

Definition removeFormState (key : string) (s : FormState) : FormState :=
  dispatch (mkAction REMOVE_FORM_META key VUndefined VUndefined)
    (dispatch (mkAction REMOVE_FORM_STATE key VUndefined VUndefined) s).

(** The setter that [setInitialState] hands to its callback [cb]. *)
Definition initialSetter (key : string) (st mt : JsVal)
    (s : FormState) : FormState :=
  let s1 :=
    if truthy st then dispatch (mkAction SET_INITIAL_STATE key st VUndefined) s
    else s in
  if truthy mt then dispatch (mkAction SET_INITIAL_META key VUndefined mt) s1
  else s1.

(** The dependency list of the effect of [setInitialState]:
    [[formState.formState[stateKey]]]. *)
Definition seedDeps (s : FormState) (key : string) : JsVal :=
  prop (formState s) key.

End UseState.

(** ** use-error.ts *)

Module UseError.

Inductive ActionType : Type := ADD | REMOVE | OTHER.

(** [error?: any]: [None] is an omitted (undefined) payload, whose spread
    adds no property. *)
Record ReducerAction : Type := mkAction {
  type : ActionType;
  stateKey : string;
  error : option Dict
}.

(** [FormErrors]: one [ComponentError] object per key. *)
Abbreviation FormErrors := (gmap string Dict).

(** [{ displayError: `${stateKey} Error`, ...error }]: the properties of
    [error] are written after the template and win. *)
Definition withTemplate (key : string) (err : option Dict) : Dict :=
  default ∅ err ∪ {[ "displayError" := VStr (key ++ " Error") ]}.

Definition reducer (s : FormErrors) (action : ReducerAction) : FormErrors :=
  match type action with
  | ADD => <[stateKey action := withTemplate (stateKey action) (error action)]> s
  | REMOVE =>
      match read s (stateKey action) with
      | Own _ | Inherited _ => delete (stateKey action) s
      | Undefined => s
      end
  | OTHER => s
  end.

Definition initialState : FormErrors := ∅.

Definition dispatch (action : ReducerAction) (s : FormErrors) : FormErrors :=
  reducer s action.

(** [formErrors[stateKey]] *)
Definition getComponentError (s : FormErrors) (key : string) : Read Dict :=
  read s key.

Definition getFormErrors (s : FormErrors) : FormErrors := s.

Definition setFormError (key : string) (err : Dict) (s : FormErrors) : FormErrors :=
  dispatch (mkAction ADD key (Some err)) s.

Definition removeFormError (key : string) (s : FormErrors) : FormErrors :=
  dispatch (mkAction REMOVE key None) s.

End UseError.

(** ** use-loading.ts *)

Module UseLoading.

Inductive ActionType : Type := ADD | REMOVE | OTHER.

Record ReducerAction : Type := mkAction {
  stateKey : string;
  type : ActionType
}.

Abbreviation FormLoading := (gmap string bool).

Definition reducer (s : FormLoading) (action : ReducerAction) : FormLoading :=
  match type action with
  | ADD => <[stateKey action := true]> s
  | REMOVE =>
      match read s (stateKey action) with
      | Own true | Inherited _ => delete (stateKey action) s
      | Own false | Undefined => s
      end
  | OTHER => s
  end.

Definition initialState : FormLoading := ∅.

Definition dispatch (action : ReducerAction) (s : FormLoading) : FormLoading :=
  reducer s action.

Definition disableLoading (key : string) (s : FormLoading) : FormLoading :=
  dispatch (mkAction key REMOVE) s.

Definition enableLoading (key : string) (s : FormLoading) : FormLoading :=
  dispatch (mkAction key ADD) s.

(** [!!loadingComponents[stateKey]] *)
Definition isLoading (s : FormLoading) (key : string) : bool :=
  match read s key with
  | Own b => b
  | Inherited _ => true
  | Undefined => false
  end.

(** [Object.keys(loadingComponents).length > 0] *)
Definition formLoading (s : FormLoading) : bool :=
  Nat.ltb 0 (length (Object_keys s)).

End UseLoading.

(** ** use-mounting.ts *)

Module UseMounting.

(** [useState(true)]; the effect, whose dependency list is the constant
    [['form']], runs once after the first render and stores [false]. *)
Definition useFormMounting (effectRan : bool) : bool :=
  if effectRan then false else true.

End UseMounting.

(** ** use-required.ts *)

Module UseRequired.

Inductive ActionType : Type := ADD | OTHER.

(** The second argument of [isRequired] is what [getComponentError]
    returns for the key. *)
Record RequiredHandler : Type := mkHandler {
  displayMessage : string;
  isRequired : JsVal → Read Dict → bool
}.

(** What a field passes to [setRequired]: an object that may leave out
    either property of a [RequiredHandler] ([{}] leaves out both). *)
Record Supplied : Type := mkSupplied {
  suppliedMessage : option string;
  suppliedIsRequired : option (JsVal → Read Dict → bool)
}.

Definition emptyHandler : Supplied :=
  {| suppliedMessage := None; suppliedIsRequired := None |}.

Record ReducerAction : Type := mkAction {
  type : ActionType;
  stateKey : string;
  required : Supplied
}.

Abbreviation RequiredHandlers := (gmap string RequiredHandler).

(** [{ isRequired: state => !state,
       displayMessage: `${stateKey} Missing and Required`,
       ...required }] *)
Definition withDefaults (key : string) (r : Supplied) : RequiredHandler :=
  {| isRequired :=
       default (fun (st : JsVal) (_ : Read Dict) => negb (truthy st))
               (suppliedIsRequired r);
     displayMessage :=
       default (key ++ " Missing and Required") (suppliedMessage r) |}.

Definition reducer (s : RequiredHandlers) (action : ReducerAction)
    : RequiredHandlers :=
  match type action with
  | ADD => <[stateKey action := withDefaults (stateKey action) (required action)]> s
  | OTHER => s
  end.

Definition initialState : RequiredHandlers := ∅.

Definition dispatch (action : ReducerAction) (s : RequiredHandlers)
    : RequiredHandlers :=
  reducer s action.

(** The dispatch of the effect of [setRequired] (dependency list
    [[stateKey]]). *)
Definition setRequired (key : string) (r : Supplied) (s : RequiredHandlers)
    : RequiredHandlers :=
  dispatch (mkAction ADD key r) s.

Record RequiredElementMessage : Type := mkMessage {
  msgDisplayMessage : string;
  isMissingNow : bool
}.

Abbreviation RequiredElementMessages := (gmap string RequiredElementMessage).

(** What a call returns, or the [TypeError] it throws. *)
Inductive Completion (A : Type) : Type :=
  | Returns (a : A)
  | ThrowsTypeError.

Arguments Returns {A} a.
Arguments ThrowsTypeError {A}.

Section WithReaders.

(** The two readers that [useFormRequired] is given: those of the state
    store and of the error store of the same render. *)
Variable getComponentState : string → JsVal.
Variable getComponentError : string → Read Dict.
Variable requiredComponents : RequiredHandlers.

(** [requiredComponents[stateKey]] *)
Definition getComponentRequired (key : string) : Read RequiredHandler :=
  read requiredComponents key.

(** The body of the [forEach] of [getFormRequired], which visits the own
    keys of [requiredComponents]: [result[key] = {...}] is an assignment. *)
Definition addMessage (result : RequiredElementMessages) (key : string)
    : RequiredElementMessages :=
  match requiredComponents !! key with
  | Some h =>
      assign result key
        {| msgDisplayMessage := displayMessage h;
           isMissingNow := isRequired h (getComponentState key)
                                        (getComponentError key) |}
  | None => result
  end.

Definition getFormRequired : RequiredElementMessages :=
  foldl addMessage ∅ (Object_keys requiredComponents).

(** [Object.values(getFormRequired()).forEach(...)] starting from
    [missing = false]. *)
Definition anyMissing : bool :=
  foldl (fun (missing : bool) (m : RequiredElementMessage) =>
           if isMissingNow m then true else missing)
        false (map_to_list getFormRequired).*2.

(** The guard [!!requiredComponents[stateKey]] holds of a registered
    handler and of an inherited member alike; an inherited member has no
    [isRequired], and calling it throws. *)
Definition isMissing (key : string) : Completion bool :=
  match read requiredComponents key with
  | Own h =>
      Returns (isRequired h (getComponentState key) (getComponentError key))
  | Inherited _ => ThrowsTypeError
  | Undefined => Returns false
  end.

End WithReaders.

End UseRequired.

(** ** context.tsx: seeding a wrapped field from the initial state *)

Module Context.

(** The result of a [SetInitialState] projector. *)
Record Projected : Type := mkProjected {
  initialState : JsVal;
  initialMeta : JsVal
}.

Definition SetInitialState : Type := string → Dict → Projected.

Definition defaultSetInitialState : SetInitialState :=
  fun initialStateKey init =>
    {| initialState := prop init initialStateKey;
       initialMeta := prop init initialStateKey |}.

Record FieldProps : Type := mkProps {
  stateKey : string;
  initialStateKey : string
}.

(** The effect that [wrapComponent] registers through [setInitialState]:
    project the initial state and hand the result to the setter. *)
Definition seedEffect (cb : SetInitialState) (props : FieldProps)
    (init : Dict) (s : UseState.FormState) : UseState.FormState :=
  let p := cb (initialStateKey props) init in
  UseState.initialSetter (stateKey props) (initialState p) (initialMeta p) s.

(** [useEffect(f, deps)]: [f] runs after the first render of the hook and
    after each later render whose dependency differs ([Object.is]) from the
    one of the render before. *)
Definition depsChanged (previous : option JsVal) (next : JsVal) : bool :=
  match previous with
  | None => true
  | Some d => negb (Object_is d next)
  end.

(** A mounted wrapped field: the form's state store, the dependency its
    seeding effect saw at the last render ([None] before the first one), and
    how many times the effect has run since the field was mounted. *)
Record Mounted : Type := mkMounted {
  store : UseState.FormState;
  memo : option JsVal;
  fired : nat
}.

Definition mount (s : UseState.FormState) : Mounted :=
  {| store := s; memo := None; fired := 0 |}.

(** One render of the component returned by [wrapComponent], followed by
    the effect it scheduled. [cb] is [None] when [setInitialStateCallback]
    is not a function. *)
Definition render (cb : option SetInitialState) (props : FieldProps)
    (init : Dict) (m : Mounted) : Mounted :=
  match cb with
  | Some f =>
      if negb (String.eqb (initialStateKey props) "")
         && negb (String.eqb (stateKey props) "")
      then
        let deps := UseState.seedDeps (store m) (stateKey props) in
        if depsChanged (memo m) deps
        then {| store := seedEffect f props init (store m);
                memo := Some deps;
                fired := S (fired m) |}
        else {| store := store m; memo := Some deps; fired := fired m |}
      else m
  | None => m
  end.

(** [n] renders in a row, nothing else writing to the store in between. *)
Fixpoint renders (n : nat) (cb : option SetInitialState) (props : FieldProps)
    (init : Dict) (m : Mounted) : Mounted :=
  match n with
  | O => m
  | S n' => renders n' cb props init (render cb props init m)
  end.

(** A write to the store by someone else between two renders. *)
Definition written (f : UseState.FormState → UseState.FormState)
    (m : Mounted) : Mounted :=
  {| store := f (store m); memo := memo m; fired := fired m |}.

End Context.

(** ** index.tsx: the [Form] component *)

Module Form.

(** [hasOnButtonClick] tells whether the [onButtonClick] prop is given;
    [initialState] and [loading] may be [undefined]. *)
Record FormProps : Type := mkFormProps {
  initialState : option Dict;
  hasOnButtonClick : bool;
  loading : option bool
}.

(** [Form.defaultProps] with a handler. *)
Definition defaultProps : FormProps :=
  {| initialState := Some ∅; hasOnButtonClick := true; loading := Some false |}.

Inductive FormEventType : Type := buttonClick.

Record EventState : Type := mkEventState {
  displayMeta : Dict;
  formMeta : Dict;
  displayState : Dict;
  formLoading : bool;
  formMounting : bool;
  formState : Dict;
  eventInitialState : Dict;
  stateChanged : bool
}.

Record EventErrors : Type := mkEventErrors {
  formErrors : UseError.FormErrors
}.

Record EventRequired : Type := mkEventRequired {
  required : UseRequired.RequiredElementMessages;
  anyMissing : bool
}.

Record FormEvent : Type := mkFormEvent {
  id : string;
  type : FormEventType;
  state : EventState;
  errors : EventErrors;
  buttonData : Dict;
  formRequired : EventRequired
}.

(** The stores of one render of [Form]. *)
Record Stores : Type := mkStores {
  stFormState : UseState.FormState;
  stFormErrors : UseError.FormErrors;
  stFormLoading : UseLoading.FormLoading;
  stFormMounting : bool;
  stRequired : UseRequired.RequiredHandlers
}.

(** [formLoading.formLoading() || props.loading] *)
Definition loadingOf (props : FormProps) (st : Stores) : option bool :=
  if UseLoading.formLoading (stFormLoading st) then Some true
  else loading props.

(** [onButtonClick(buttonID = 'submit', buttonData = {})]: the event handed
    to [props.onButtonClick], [None] when the prop is not given. *)
Definition onButtonClick (props : FormProps) (st : Stores)
    (buttonID : option string) (data : option Dict) : option FormEvent :=
  let getState := UseState.getComponentState (stFormState st) in
  let getError := UseError.getComponentError (stFormErrors st) in
  if hasOnButtonClick props then
    Some {|
      id := default "submit" buttonID;
      type := buttonClick;
      state := {|
        displayMeta := UseState.displayMeta (stFormState st);
        formMeta := UseState.formMeta (stFormState st);
        displayState := UseState.displayState (stFormState st);
        formState := UseState.formState (stFormState st);
        stateChanged := UseState.stateChanged (stFormState st);
        formLoading := default false (loadingOf props st);
        formMounting := stFormMounting st;
        eventInitialState := default ∅ (initialState props) |};
      errors := {| formErrors := stFormErrors st |};
      buttonData := default ∅ data;
      formRequired := {|
        required := UseRequired.getFormRequired getState getError (stRequired st);
        anyMissing := UseRequired.anyMissing getState getError (stRequired st) |}
    |}
  else None.

End Form.

(** * Statements

    The vocabulary of the properties below. *)

(** ** Sequences of operations on the state store *)

Inductive Op : Type :=
  | SetField (key : string) (st mt : JsVal)
  | RemoveField (key : string)
  | SeedField (key : string) (st mt : JsVal).

Definition applyOp (s : UseState.FormState) (o : Op) : UseState.FormState :=
  match o with
  | SetField key st mt => UseState.setFormState key st mt s
  | RemoveField key => UseState.removeFormState key s
  | SeedField key st mt => UseState.initialSetter key st mt s
  end.

(** The store after the operations [ops], applied in order to the empty
    store. *)
Definition run (ops : list Op) : UseState.FormState :=
  foldl applyOp UseState.initialState ops.

Definition isSet (o : Op) : bool :=
  match o with SetField _ _ _ => true | _ => false end.

(** Every key of the committed mappings is a key of the displayed ones,
    with the same value. *)
Definition mirrored (s : UseState.FormState) : Prop :=
  (∀ key v, UseState.formState s !! key = Some v →
            UseState.displayState s !! key = Some v) ∧
  (∀ key v, UseState.formMeta s !! key = Some v →
            UseState.displayMeta s !! key = Some v).

(** A seeding that cannot overwrite an edit: [key] has no committed state
    and no committed meta when it is seeded. *)
Definition seedsBeforeEdit (s : UseState.FormState) (o : Op) : Prop :=
  match o with
  | SeedField key _ _ =>
      UseState.formState s !! key = None ∧ UseState.formMeta s !! key = None
  | _ => True
  end.

Fixpoint wellSeeded (s : UseState.FormState) (ops : list Op) : Prop :=
  match ops with
  | [] => True
  | o :: ops' => seedsBeforeEdit s o ∧ wellSeeded (applyOp s o) ops'
  end.

(** ** Removal *)

(** A removal of [k] that leaves every other key of the committed and of
    the displayed state as it was. *)
Definition removalKeepsOthers (s : UseState.FormState) (k : string) : Prop :=
  let s' := UseState.removeFormState k s in
  UseState.formState s' !! k = None ∧
  UseState.displayState s' !! k = None ∧
  ∀ j, j ≠ k →
    UseState.formState s' !! j = UseState.formState s !! j ∧
    UseState.displayState s' !! j = UseState.displayState s !! j.

(** ** Writing *)

(** A value that is neither [undefined] nor [null]. *)
Definition provided (v : JsVal) : Prop := v ≠ VUndefined ∧ v ≠ VNull.

(** [setFormState key v mt] has written [v] and marked the store changed. *)
Definition writesState (key : string) (v mt : JsVal)
    (s : UseState.FormState) : Prop :=
  let s' := UseState.setFormState key v mt s in
  UseState.formState s' !! key = Some v ∧
  UseState.displayState s' !! key = Some v ∧
  UseState.stateChanged s' = true.

(** ** Errors *)

(** The entry that [setFormError key e] stores at [key]. *)
Definition storedError (key : string) (e : Dict) (s : UseError.FormErrors)
    : option Dict :=
  UseError.setFormError key e s !! key.

Definition templateMessage (key : string) : JsVal := VStr (key ++ " Error").

(** The stored [displayError] is the template's exactly when [e] has no
    [displayError] of its own. *)
Definition templateIffNotSupplied (key : string) (e : Dict) : Prop :=
  ∀ s stored, storedError key e s = Some stored →
    (stored !! "displayError" = Some (templateMessage key)
     ↔ e !! "displayError" = None).

(** ** The stores of the examples *)

(** An edit-mode form: the initial state handed to [Form]. *)
Definition editInitialState : Dict := {[ "email" := VStr "a@b.com" ]}.

Definition emailField : Context.FieldProps :=
  {| Context.stateKey := "email"; Context.initialStateKey := "email" |}.

(** The store once the field [email] has been seeded and never edited. *)
Definition seededStore : UseState.FormState :=
  Context.seedEffect Context.defaultSetInitialState emailField
    editInitialState UseState.initialState.


(** The field [email] is mounted and rendered, the user types ["x"], and
    the field is rendered again. *)
Definition editedAfterSeeding : Context.Mounted :=
  let cb := Some Context.defaultSetInitialState in
  let m1 := Context.render cb emailField editInitialState
              (Context.mount UseState.initialState) in
  let m2 := Context.written
              (UseState.setFormState "email" (VStr "x") (VStr "x")) m1 in
  Context.render cb emailField editInitialState m2.

(** The stores of a form whose only write was [setFormState("a", "x", mt)],
    with no error, no required handler, no busy field and the mounting
    effect done. *)
Definition submitStores (mt : JsVal) : Form.Stores :=
  {| Form.stFormState :=
       UseState.setFormState "a" (VStr "x") mt UseState.initialState;
     Form.stFormErrors := UseError.initialState;
     Form.stFormLoading := UseLoading.initialState;
     Form.stFormMounting := UseMounting.useFormMounting true;
     Form.stRequired := UseRequired.initialState |}.

(** ** context.tsx: the update guard *)

(** [a === b]. It differs from [Object.is] on [NaN], which is not equal to
    itself (and on the two zeros, which the integers do not have). *)
Definition strict_equal (a b : JsVal) : bool :=
  match a, b with
  | VNaN, VNaN => false
  | _, _ => Object_is a b
  end.

Module Memo.

(** The four props that [defaultShouldUpdate] reads. [componentError] is
    the error object of the field, by reference, or [undefined]. *)
Record ComponentProps : Type := mkProps {
  componentState : JsVal;
  componentError : JsVal;
  isLoading : bool;
  isMissing : bool
}.

Definition ShouldUpdate : Type := ComponentProps → ComponentProps → bool.

Definition defaultShouldUpdate : ShouldUpdate :=
  fun oldProps newProps =>
    if strict_equal (componentState newProps) VUndefined
       && strict_equal (componentState oldProps) VUndefined
    then false
    else
      strict_equal (componentState newProps) (componentState oldProps)
      && strict_equal (componentError newProps) (componentError oldProps)
      && Bool.eqb (isLoading newProps) (isLoading oldProps)
      && Bool.eqb (isMissing newProps) (isMissing oldProps).

(** The comparator that [memoize] gives to [React.memo], which skips the
    render when it returns [true]. [shouldUpdate] is [None] when the option
    is not a function. *)
Definition memoize (shouldUpdate : option ShouldUpdate) : ShouldUpdate :=
  fun oldProps newProps =>
    match shouldUpdate with
    | Some f => f oldProps newProps
    | None => true
    end.

End Memo.

(** ** Sequences of operations on the other stores *)

Inductive ErrorOp : Type :=
  | SetError (key : string) (e : Dict)
  | RemoveError (key : string).

Definition applyErrorOp (s : UseError.FormErrors) (o : ErrorOp)
    : UseError.FormErrors :=
  match o with
  | SetError key e => UseError.setFormError key e s
  | RemoveError key => UseError.removeFormError key s
  end.

Definition runErrors (ops : list ErrorOp) : UseError.FormErrors :=
  foldl applyErrorOp UseError.initialState ops.

Inductive LoadingOp : Type :=
  | EnableLoading (key : string)
  | DisableLoading (key : string).

Definition applyLoadingOp (s : UseLoading.FormLoading) (o : LoadingOp)
    : UseLoading.FormLoading :=
  match o with
  | EnableLoading key => UseLoading.enableLoading key s
  | DisableLoading key => UseLoading.disableLoading key s
  end.

Definition runLoading (ops : list LoadingOp) : UseLoading.FormLoading :=
  foldl applyLoadingOp UseLoading.initialState ops.

(** Every value of a dictionary is truthy. *)
Definition allTruthy (o : Dict) : Prop :=
  ∀ key v, o !! key = Some v → truthy v = true.

(** The message that [getFormRequired] computes for a handler. *)
Definition messageOf (getState : string → JsVal)
    (getError : string → Read Dict) (key : string)
    (h : UseRequired.RequiredHandler) : UseRequired.RequiredElementMessage :=
  {| UseRequired.msgDisplayMessage := UseRequired.displayMessage h;
     UseRequired.isMissingNow :=
       UseRequired.isRequired h (getState key) (getError key) |}.

(** Equalities of maps built from inserts and deletes, key by key. *)
Ltac map_by_lookup :=
  apply map_eq; intros ?;
  repeat (rewrite lookup_delete || rewrite lookup_insert);
  repeat (case_decide; simplify_eq;
          repeat (rewrite lookup_delete || rewrite lookup_insert));
  try done.

(** * Properties *)

(** ** Reading the stores *)

Lemma prop_lookup (o : Dict) (key : string) (v : JsVal) :
  o !! key = Some v → prop o key = v.
Proof. intros H. unfold prop. by rewrite H. Qed.

Lemma inherited_cases (key : string) :
  ((key ∈ objectPrototypeMembers) ∧ inherited key = VBuiltin key)
  ∨ ((key ∉ objectPrototypeMembers) ∧ inherited key = VUndefined).
Proof.
  unfold inherited. destruct (decide (key ∈ objectPrototypeMembers)) as [H|H].
  - left. by rewrite bool_decide_eq_true_2.
  - right. by rewrite bool_decide_eq_false_2.
Qed.

Lemma read_own {A : Type} (o : gmap string A) (key : string) (a : A) :
  o !! key = Some a → read o key = Own a.
Proof. intros H. unfold read. by rewrite H. Qed.

Lemma read_plain {A : Type} (o : gmap string A) (key : string) :
  o !! key = None → inherited key = VUndefined → read o key = Undefined.
Proof. intros H Hi. unfold read. by rewrite H, Hi. Qed.

Lemma read_inherited {A : Type} (o : gmap string A) (key : string) :
  o !! key = None → key ∈ objectPrototypeMembers →
  read o key = Inherited (VBuiltin key).
Proof.
  intros H Hi. unfold read, inherited.
  by rewrite H, bool_decide_eq_true_2.
Qed.

Lemma elem_of_Object_keys {A : Type} (o : gmap string A) (key : string) :
  key ∈ Object_keys o ↔ is_Some (o !! key).
Proof.
  unfold Object_keys. rewrite list_elem_of_fmap. split.
  - intros [[k' v] [-> Hin]]. apply elem_of_map_to_list in Hin. by exists v.
  - intros [v Hv]. exists (key, v). split; [done|]. by apply elem_of_map_to_list.
Qed.

(** ** Assignment *)

Lemma assign_lookup {A : Type} (object : gmap string A) (key j : string)
    (v : A) :
  object !! "__proto__" = None →
  assign object key v !! j =
    if decide (j = key ∧ key ≠ "__proto__") then Some v else object !! j.
Proof.
  intros Hproto. unfold assign.
  destruct (decide (key = "__proto__")) as [->|Hkey].
  - rewrite Hproto. rewrite decide_False; [done|]. by intros [_ ?].
  - destruct (decide (j = key)) as [->|Hne].
    + rewrite lookup_insert_eq. by rewrite decide_True.
    + rewrite lookup_insert_ne by done. rewrite decide_False; [done|].
      by intros [? _].
Qed.

Lemma assign_no_proto {A : Type} (object : gmap string A) (key : string)
    (v : A) :
  object !! "__proto__" = None → assign object key v !! "__proto__" = None.
Proof.
  intros Hproto. rewrite assign_lookup by done.
  rewrite decide_False; [done|]. intros [<- ?]. done.
Qed.

(** ** The rebuilding of a removal *)

Section Rebuild.

Variable source : Dict.
Variable removed : string.

(** What one pass over a list of keys leaves at [j], in an accumulator
    that has no own [__proto__]. *)
Lemma foldl_copyUnless_lookup (keys : list string) (acc : Dict) (j : string) :
  acc !! "__proto__" = None →
  foldl (UseState.copyUnless source removed) acc keys !! j =
    if decide (j ∈ keys ∧ j ≠ removed ∧ j ≠ "__proto__")
    then Some (prop source j) else acc !! j.
Proof.
  revert acc. induction keys as [|key keys IH]; intros acc Hproto; cbn [foldl].
  - rewrite decide_False; [done|]. intros [H _]. by apply elem_of_nil in H.
  - assert (UseState.copyUnless source removed acc key !! "__proto__" = None)
      as Hproto'.
    { unfold UseState.copyUnless.
      destruct (decide (key ≠ removed)); [|done]. by apply assign_no_proto. }
    rewrite (IH _ Hproto').
    destruct (decide (j ∈ keys ∧ j ≠ removed ∧ j ≠ "__proto__"))
      as [(Hin & Hne & Hp)|Hno].
    + rewrite decide_True; [done|]. split; [by right|by split].
    + unfold UseState.copyUnless.
      destruct (decide (key ≠ removed)) as [Hk|Hk].
      * rewrite assign_lookup by done.
        destruct (decide (j = key ∧ key ≠ "__proto__")) as [[-> Hp]|Hjk].
        -- rewrite decide_True; [done|]. split; [by left|by split].
        -- rewrite (decide_False
                      (P := j ∈ key :: keys ∧ j ≠ removed ∧ j ≠ "__proto__"));
             [done|].
           intros (Hin & Hne & Hp). apply elem_of_cons in Hin as [->|Hin].
           ++ by apply Hjk.
           ++ by apply Hno.
      * rewrite (decide_False
                   (P := j ∈ key :: keys ∧ j ≠ removed ∧ j ≠ "__proto__"));
          [done|].
        intros (Hin & Hne & Hp). apply elem_of_cons in Hin as [->|Hin].
        -- by apply Hk.
        -- by apply Hno.
Qed.

Lemma rebuild_lookup (acc : Dict) (j : string) :
  acc !! "__proto__" = None →
  UseState.rebuild source removed acc !! j =
    if decide (j ≠ removed ∧ j ≠ "__proto__" ∧ is_Some (source !! j))
    then source !! j else acc !! j.
Proof.
  intros Hproto. unfold UseState.rebuild.
  rewrite foldl_copyUnless_lookup by done.
  destruct (decide (j ≠ removed ∧ j ≠ "__proto__" ∧ is_Some (source !! j)))
    as [(Hne & Hp & [v Hv])|Hno].
  - rewrite decide_True.
    + by rewrite (prop_lookup _ _ _ Hv).
    + split; [|done]. apply elem_of_Object_keys. by exists v.
  - rewrite decide_False; [done|].
    intros (Hin & Hne & Hp). apply Hno. repeat split; try done.
    by apply elem_of_Object_keys.
Qed.

(** The first pass, into the fresh accumulator: every key of the source is
    copied but the removed one and [__proto__]. *)
Lemma rebuild_empty :
  UseState.rebuild source removed ∅ = delete removed (delete "__proto__" source).
Proof.
  apply map_eq. intros j. rewrite rebuild_lookup by apply lookup_empty.
  rewrite lookup_empty.
  destruct (decide (j = removed)) as [->|Hne].
  - rewrite lookup_delete_eq. rewrite decide_False; [done|]. by intros [? _].
  - rewrite lookup_delete_ne by done.
    destruct (decide (j = "__proto__")) as [->|Hp].
    + rewrite lookup_delete_eq. rewrite decide_False; [done|].
      by intros (_ & ? & _).
    + rewrite lookup_delete_ne by done.
      case_decide as H; [done|].
      destruct (source !! j) as [v|] eqn:E; [|done].
      exfalso. apply H. by repeat split.
Qed.

(** The second pass, into the accumulator the first one filled. *)
Lemma rebuild_again :
  UseState.rebuild source removed (delete removed (delete "__proto__" source))
    = delete removed (delete "__proto__" source).
Proof.
  apply map_eq. intros j. rewrite rebuild_lookup.
  - case_decide as H; [|done].
    destruct H as (Hne & Hp & _). by rewrite !lookup_delete_ne.
  - destruct (decide (removed = "__proto__")) as [->|Hne].
    + apply lookup_delete_eq.
    + rewrite lookup_delete_ne by done. apply lookup_delete_eq.
Qed.

End Rebuild.

(** The state after [removeFormState], in closed form. *)
Lemma removeFormState_eq (k : string) (s : UseState.FormState) :
  UseState.removeFormState k s =
    {| UseState.formState :=
         delete k (delete "__proto__" (UseState.displayState s));
       UseState.displayState :=
         delete k (delete "__proto__" (UseState.displayState s));
       UseState.formMeta :=
         delete k (delete "__proto__" (UseState.displayMeta s));
       UseState.displayMeta :=
         delete k (delete "__proto__" (UseState.displayMeta s));
       UseState.stateChanged := true |}.
Proof.
  unfold UseState.removeFormState, UseState.dispatch, UseState.reducer. simpl.
  by rewrite !rebuild_empty, !rebuild_again.
Qed.

(** ** Removal ([removeFormState]) *)

(** C9. [removeFormState(k)] leaves [stateChanged] true, whatever the store
    was before, also when [k] was in neither the committed nor the displayed
    state. *)
Theorem removeFormState_marks_changed (s : UseState.FormState) (k : string) :
  UseState.stateChanged (UseState.removeFormState k s) = true.
Proof. by rewrite removeFormState_eq. Qed.

(** After [removeFormState(k)] the committed state and the displayed state
    are the same mapping: the displayed state of before without [k] and
    without [__proto__]. The same holds of the two meta mappings. *)
Lemma removeFormState_lookup (s : UseState.FormState) (k : string) :
  let s' := UseState.removeFormState k s in
  UseState.formState s' = UseState.displayState s' ∧
  UseState.formMeta s' = UseState.displayMeta s' ∧
  (∀ j, UseState.formState s' !! j =
          if decide (j = k ∨ j = "__proto__") then None
          else UseState.displayState s !! j) ∧
  (∀ j, UseState.formMeta s' !! j =
          if decide (j = k ∨ j = "__proto__") then None
          else UseState.displayMeta s !! j).
Proof.
  cbn zeta. rewrite removeFormState_eq.
  cbn [UseState.formState UseState.displayState UseState.formMeta
       UseState.displayMeta].
  assert (∀ (o : Dict) j,
    delete k (delete "__proto__" o) !! j =
      if decide (j = k ∨ j = "__proto__") then None else o !! j) as Hlookup.
  { intros o j. destruct (decide (j = k ∨ j = "__proto__")) as [[->|Hp]|Hno].
    - apply lookup_delete_eq.
    - destruct (decide (j = k)) as [->|Hne]; [apply lookup_delete_eq|].
      rewrite lookup_delete_ne by done. subst j. apply lookup_delete_eq.
    - rewrite !lookup_delete_ne; [done|intros <-|intros <-]; apply Hno; auto. }
  by repeat split.
Qed.


(** A value that was seeded and never edited is in the committed state
    after another key has been removed. *)
Example removal_commits_seeded_value :
  UseState.formState seededStore !! "email" = None ∧
  UseState.formState (UseState.removeFormState "name" seededStore) !! "email"
    = Some (VStr "a@b.com").
Proof. split; vm_compute; reflexivity. Qed.

(** C1, as stated, fails: with [email] seeded and never edited, removing
    another key puts [email] into the committed state, where it was absent
    before. *)
Lemma removal_changes_uncommitted_key : ¬ removalKeepsOthers seededStore "name".
Proof.
  unfold removalKeepsOthers. cbn zeta. intros (_ & _ & H).
  destruct (H "email") as [Hform _]; [discriminate|].
  destruct removal_commits_seeded_value as [Hbefore Hafter].
  rewrite Hbefore, Hafter in Hform. discriminate Hform.
Qed.

(** C1, amended. [removeFormState(k)] leaves [k] absent from the committed
    and from the displayed state; for every other key [j], the key
    [__proto__] apart, the displayed value is unchanged and the committed
    value becomes the displayed value of before, so that it is unchanged
    whenever the two agreed at [j]. *)
Theorem removeFormState_others (s : UseState.FormState) (k j : string) :
  j ≠ k → j ≠ "__proto__" →
  let s' := UseState.removeFormState k s in
  UseState.formState s' !! k = None ∧
  UseState.displayState s' !! k = None ∧
  UseState.displayState s' !! j = UseState.displayState s !! j ∧
  UseState.formState s' !! j = UseState.displayState s !! j ∧
  (UseState.formState s !! j = UseState.displayState s !! j →
   UseState.formState s' !! j = UseState.formState s !! j).
Proof.
  intros Hne Hproto. cbn zeta. rewrite removeFormState_eq. cbn.
  rewrite !lookup_delete_eq, !lookup_delete_ne by done.
  by repeat split.
Qed.

Lemma removeFormState_others_witness :
  let s' := UseState.removeFormState "name" seededStore in
  UseState.formState s' !! "name" = None ∧
  UseState.displayState s' !! "name" = None ∧
  UseState.displayState s' !! "email" = UseState.displayState seededStore !! "email" ∧
  UseState.formState s' !! "email" = UseState.displayState seededStore !! "email" ∧
  (UseState.formState seededStore !! "email" = UseState.displayState seededStore !! "email" →
   UseState.formState s' !! "email" = UseState.formState seededStore !! "email").
Proof.
  apply (removeFormState_others seededStore "name" "email"); discriminate.
Defined.

(** ** Writing ([setFormState]) *)

Lemma setFormState_truthy_state (key : string) (v mt : JsVal)
    (s : UseState.FormState) :
  truthy v = true →
  UseState.formState (UseState.setFormState key v mt s)
    = <[key := v]> (UseState.formState s) ∧
  UseState.displayState (UseState.setFormState key v mt s)
    = <[key := v]> (UseState.displayState s) ∧
  UseState.stateChanged (UseState.setFormState key v mt s) = true.
Proof.
  intros Hv. unfold UseState.setFormState. rewrite Hv.
  by destruct (truthy mt).
Qed.

Lemma setFormState_falsy_state (key : string) (v mt : JsVal)
    (s : UseState.FormState) :
  truthy v = false →
  UseState.formState (UseState.setFormState key v mt s) = UseState.formState s ∧
  UseState.displayState (UseState.setFormState key v mt s)
    = UseState.displayState s.
Proof.
  intros Hv. unfold UseState.setFormState. rewrite Hv.
  by destruct (truthy mt).
Qed.

(** C3, as stated, fails: [0], [false] and the empty string are provided
    values, and [setFormState] writes none of them. *)
Lemma falsy_state_not_written :
  (provided (VNum 0) ∧ ¬ writesState "a" (VNum 0) VUndefined UseState.initialState) ∧
  (provided (VBool false) ∧
   ¬ writesState "a" (VBool false) VUndefined UseState.initialState) ∧
  (provided (VStr "") ∧ ¬ writesState "a" (VStr "") VUndefined UseState.initialState).
Proof.
  repeat split; try discriminate; intros (H & _ & _); discriminate H.
Qed.

(** C3, amended. For every key and every truthy state value,
    [setFormState(key, state, meta?)] writes the value at [key] in the
    committed and in the displayed state and leaves [stateChanged] true. *)
Theorem setFormState_writes_truthy (key : string) (v mt : JsVal)
    (s : UseState.FormState) :
  truthy v = true → writesState key v mt s.
Proof.
  intros Hv. destruct (setFormState_truthy_state key v mt s Hv) as (Hf & Hd & Hc).
  unfold writesState. cbn zeta. rewrite Hf, Hd, Hc.
  by rewrite !lookup_insert_eq.
Qed.

Lemma setFormState_writes_truthy_witness :
  writesState "a" (VStr "x") VUndefined UseState.initialState.
Proof.
  apply (setFormState_writes_truthy "a" (VStr "x") VUndefined UseState.initialState).
  reflexivity.
Defined.

(** C8. [setFormState(k, state, undefined)] leaves the committed and the
    displayed meta as they were, at [k] and at every other key, and
    [setFormState(k, undefined, meta)] leaves the committed and the
    displayed state as they were. *)
Theorem setFormState_halves_independent (k : string) (st mt : JsVal)
    (s : UseState.FormState) :
  (UseState.formMeta (UseState.setFormState k st VUndefined s)
     = UseState.formMeta s ∧
   UseState.displayMeta (UseState.setFormState k st VUndefined s)
     = UseState.displayMeta s) ∧
  (UseState.formState (UseState.setFormState k VUndefined mt s)
     = UseState.formState s ∧
   UseState.displayState (UseState.setFormState k VUndefined mt s)
     = UseState.displayState s).
Proof.
  split.
  - unfold UseState.setFormState. cbn [truthy]. by destruct (truthy st).
  - by apply setFormState_falsy_state.
Qed.

(** After writes alone the committed and the displayed mappings coincide,
    so a removal then leaves every other key, [__proto__] apart, as it
    was. *)
Lemma sets_keep_equal (ops : list Op) (s : UseState.FormState) :
  forallb isSet ops = true →
  UseState.formState s = UseState.displayState s →
  UseState.formState (foldl applyOp s ops)
    = UseState.displayState (foldl applyOp s ops).
Proof.
  revert s. induction ops as [|o ops IH]; intros s Hall Heq; [done|].
  cbn [forallb] in Hall. apply andb_prop in Hall as [Ho Hall].
  cbn [foldl]. apply IH; [done|].
  destruct o as [key st mt| |]; try discriminate Ho. cbn [applyOp].
  destruct (truthy st) eqn:Hst.
  - destruct (setFormState_truthy_state key st mt s Hst) as (-> & -> & _).
    by rewrite Heq.
  - by destruct (setFormState_falsy_state key st mt s Hst) as (-> & ->).
Qed.

Lemma removal_after_sets (ops : list Op) (k j : string) :
  forallb isSet ops = true → j ≠ k → j ≠ "__proto__" →
  let s' := UseState.removeFormState k (run ops) in
  UseState.formState s' !! k = None ∧
  UseState.displayState s' !! k = None ∧
  UseState.formState s' !! j = UseState.formState (run ops) !! j ∧
  UseState.displayState s' !! j = UseState.displayState (run ops) !! j.
Proof.
  intros Hall Hne Hproto. cbn zeta.
  pose proof (sets_keep_equal ops UseState.initialState Hall eq_refl) as Heq.
  fold (run ops) in Heq.
  rewrite removeFormState_eq. cbn [UseState.formState UseState.displayState].
  rewrite !lookup_delete_eq, !lookup_delete_ne by done. by rewrite Heq.
Qed.

(** ** Seeding ([setInitialState]) *)

Lemma initialSetter_eq (key : string) (st mt : JsVal) (s : UseState.FormState) :
  UseState.initialSetter key st mt s =
    {| UseState.formState := UseState.formState s;
       UseState.displayState :=
         if truthy st then <[key := st]> (UseState.displayState s)
         else UseState.displayState s;
       UseState.formMeta := UseState.formMeta s;
       UseState.displayMeta :=
         if truthy mt then <[key := mt]> (UseState.displayMeta s)
         else UseState.displayMeta s;
       UseState.stateChanged :=
         if truthy st || truthy mt then false else UseState.stateChanged s |}.
Proof.
  unfold UseState.initialSetter.
  destruct s, (truthy st), (truthy mt); reflexivity.
Qed.

Lemma initialSetter_idempotent (key : string) (st mt : JsVal)
    (s : UseState.FormState) :
  UseState.initialSetter key st mt (UseState.initialSetter key st mt s)
    = UseState.initialSetter key st mt s.
Proof.
  rewrite !initialSetter_eq. cbn.
  destruct (truthy st), (truthy mt); cbn; by rewrite ?insert_insert_eq.
Qed.

(** A projection that is falsy in both parts seeds nothing: the store is
    left as it was, [stateChanged] included. *)
Lemma initialSetter_falsy (key : string) (st mt : JsVal)
    (s : UseState.FormState) :
  truthy st = false → truthy mt = false →
  UseState.initialSetter key st mt s = s.
Proof.
  intros Hst Hmt. unfold UseState.initialSetter. by rewrite Hst, Hmt.
Qed.

Lemma Object_is_refl (v : JsVal) : Object_is v v = true.
Proof.
  destruct v; cbn; try done.
  - by destruct b.
  - apply Z.eqb_refl.
  - apply String.eqb_refl.
  - apply Nat.eqb_refl.
  - apply String.eqb_refl.
Qed.

Lemma seedDeps_seedEffect (f : Context.SetInitialState)
    (props : Context.FieldProps) (init : Dict) (s : UseState.FormState) :
  UseState.seedDeps (Context.seedEffect f props init s) (Context.stateKey props)
    = UseState.seedDeps s (Context.stateKey props).
Proof.
  unfold Context.seedEffect, UseState.seedDeps. by rewrite initialSetter_eq.
Qed.

(** A render whose dependency is the one of the render before leaves the
    mounted field as it is. *)
Lemma render_same_deps (cb : option Context.SetInitialState)
    (props : Context.FieldProps) (init : Dict) (m : Context.Mounted) :
  Context.memo m
    = Some (UseState.seedDeps (Context.store m) (Context.stateKey props)) →
  Context.render cb props init m = m.
Proof.
  destruct m as [s mm n]. cbn. intros ->. unfold Context.render.
  destruct cb as [f|]; [|done].
  destruct (_ && _); [|done]. cbn.
  by rewrite Object_is_refl.
Qed.

Lemma renders_fixed (n : nat) (cb : option Context.SetInitialState)
    (props : Context.FieldProps) (init : Dict) (m : Context.Mounted) :
  Context.render cb props init m = m → Context.renders n cb props init m = m.
Proof.
  intros Hm. induction n as [|n IH]; [done|]. cbn. by rewrite Hm.
Qed.

(** The first render of a mounted field. *)
Lemma render_mount (f : Context.SetInitialState) (props : Context.FieldProps)
    (init : Dict) (s : UseState.FormState) :
  Context.render (Some f) props init (Context.mount s) =
    if negb (String.eqb (Context.initialStateKey props) "")
       && negb (String.eqb (Context.stateKey props) "")
    then {| Context.store := Context.seedEffect f props init s;
            Context.memo :=
              Some (UseState.seedDeps s (Context.stateKey props));
            Context.fired := 1 |}
    else Context.mount s.
Proof. unfold Context.render. cbn. by destruct (_ && _). Qed.

(** Renders that follow the first one, with no write in between, do not
    run the effect again. *)
Lemma renders_after_first (n : nat) (f : Context.SetInitialState)
    (props : Context.FieldProps) (init : Dict) (s : UseState.FormState) :
  Context.renders (S n) (Some f) props init (Context.mount s)
    = Context.render (Some f) props init (Context.mount s).
Proof.
  cbn [Context.renders]. rewrite render_mount.
  destruct (_ && _) eqn:Hguard.
  - apply renders_fixed, render_same_deps. cbn. by rewrite seedDeps_seedEffect.
  - apply renders_fixed. unfold Context.render. by rewrite Hguard.
Qed.

(** C4. Running the seeding of a field twice, with the same keys and
    nothing written in between, leaves the store (displayed state and meta
    included) as running it once does, and [stateChanged] is false after
    both, when it was false before or the projection seeds anything. Over
    any number of renders of the mounted field with no write in between,
    the effect runs at most once: every render after the first one leaves
    the field as the first one did. *)
Theorem seeding_idempotent_and_once (f : Context.SetInitialState)
    (props : Context.FieldProps) (init : Dict) (s : UseState.FormState)
    (n : nat) :
  let p := f (Context.initialStateKey props) init in
  UseState.stateChanged s = false
    ∨ truthy (Context.initialState p) || truthy (Context.initialMeta p) = true →
  let once := Context.seedEffect f props init s in
  let twice := Context.seedEffect f props init once in
  let first := Context.render (Some f) props init (Context.mount s) in
  (twice = once ∧
   UseState.displayState twice = UseState.displayState once ∧
   UseState.displayMeta twice = UseState.displayMeta once) ∧
  (UseState.stateChanged once = false ∧ UseState.stateChanged twice = false) ∧
  (Context.renders (S n) (Some f) props init (Context.mount s) = first ∧
   (Context.fired first ≤ 1)%nat ∧
   (Context.store first = once ∨ Context.store first = s)).
Proof.
  cbn zeta. intros Hflag.
  assert (Context.seedEffect f props init (Context.seedEffect f props init s)
          = Context.seedEffect f props init s) as Hidem
    by apply initialSetter_idempotent.
  rewrite !Hidem.
  assert (UseState.stateChanged (Context.seedEffect f props init s) = false)
    as Hfalse.
  { unfold Context.seedEffect. rewrite initialSetter_eq. cbn.
    destruct Hflag as [H|H]; rewrite H; by destruct (_ || _). }
  repeat split; try done.
  - apply renders_after_first.
  - rewrite render_mount. destruct (_ && _); cbn; lia.
  - rewrite render_mount. destruct (_ && _); cbn; [by left|by right].
Qed.

Lemma seeding_idempotent_and_once_witness :
  let once := seededStore in
  let twice :=
    Context.seedEffect Context.defaultSetInitialState emailField
      editInitialState once in
  let first :=
    Context.render (Some Context.defaultSetInitialState) emailField
      editInitialState (Context.mount UseState.initialState) in
  (twice = once ∧
   UseState.displayState twice = UseState.displayState once ∧
   UseState.displayMeta twice = UseState.displayMeta once) ∧
  (UseState.stateChanged once = false ∧ UseState.stateChanged twice = false) ∧
  (Context.renders 3 (Some Context.defaultSetInitialState) emailField
     editInitialState (Context.mount UseState.initialState) = first ∧
   (Context.fired first ≤ 1)%nat ∧
   (Context.store first = once ∨ Context.store first = UseState.initialState)).
Proof.
  apply (seeding_idempotent_and_once Context.defaultSetInitialState emailField
           editInitialState UseState.initialState 2).
  left. reflexivity.
Defined.

(** ** The committed state as a part of the displayed state *)

Lemma mirrored_initialState : mirrored UseState.initialState.
Proof. split; intros key v H; cbn in H; by rewrite lookup_empty in H. Qed.

Lemma mirrored_reducer_set (key : string) (st : JsVal) (s : UseState.FormState) :
  mirrored s →
  mirrored (UseState.dispatch
              (UseState.mkAction UseState.SET_FORM_STATE key st VUndefined) s).
Proof.
  intros [Hs Hm]. split; [|done]. cbn. intros j v.
  destruct (decide (j = key)) as [->|Hne].
  - by rewrite !lookup_insert_eq.
  - rewrite !lookup_insert_ne by done. apply Hs.
Qed.

Lemma mirrored_reducer_meta (key : string) (mt : JsVal) (s : UseState.FormState) :
  mirrored s →
  mirrored (UseState.dispatch
              (UseState.mkAction UseState.SET_FORM_META key VUndefined mt) s).
Proof.
  intros [Hs Hm]. split; [done|]. cbn. intros j v.
  destruct (decide (j = key)) as [->|Hne].
  - by rewrite !lookup_insert_eq.
  - rewrite !lookup_insert_ne by done. apply Hm.
Qed.

Lemma mirrored_setFormState (key : string) (st mt : JsVal)
    (s : UseState.FormState) :
  mirrored s → mirrored (UseState.setFormState key st mt s).
Proof.
  intros H. unfold UseState.setFormState.
  destruct (truthy st), (truthy mt);
    auto using mirrored_reducer_set, mirrored_reducer_meta.
Qed.

Lemma mirrored_removeFormState (key : string) (s : UseState.FormState) :
  mirrored (UseState.removeFormState key s).
Proof. rewrite removeFormState_eq. by split. Qed.

(** Seeding a key that has neither committed state nor committed meta. *)
Lemma mirrored_initialSetter (key : string) (st mt : JsVal)
    (s : UseState.FormState) :
  UseState.formState s !! key = None →
  UseState.formMeta s !! key = None →
  mirrored s → mirrored (UseState.initialSetter key st mt s).
Proof.
  intros Hfs Hfm [Hs Hm]. rewrite initialSetter_eq. split; cbn; intros j v Hj.
  - destruct (truthy st); [|by apply Hs].
    destruct (decide (j = key)) as [->|Hne]; [congruence|].
    rewrite lookup_insert_ne by done. by apply Hs.
  - destruct (truthy mt); [|by apply Hm].
    destruct (decide (j = key)) as [->|Hne]; [congruence|].
    rewrite lookup_insert_ne by done. by apply Hm.
Qed.

(** The invariant holds along every sequence of writes, removals and
    seedings in which a key is seeded only while it has no committed
    value. *)
Lemma mirrored_wellSeeded (ops : list Op) (s : UseState.FormState) :
  mirrored s → wellSeeded s ops → mirrored (foldl applyOp s ops).
Proof.
  revert s. induction ops as [|o ops IH]; intros s Hs Hops; [done|].
  destruct Hops as [Ho Hops]. cbn [foldl]. apply IH; [|done].
  destruct o as [key st mt|key|key st mt]; cbn [applyOp].
  - by apply mirrored_setFormState.
  - apply mirrored_removeFormState.
  - destruct Ho as [Hfs Hfm]. by apply mirrored_initialSetter.
Qed.

(** The store of [editedAfterSeeding] at [email]. *)
Lemma editedAfterSeeding_email :
  UseState.formState (Context.store editedAfterSeeding) !! "email"
    = Some (VStr "x") ∧
  UseState.displayState (Context.store editedAfterSeeding) !! "email"
    = Some (VStr "a@b.com").
Proof. split; vm_compute; reflexivity. Qed.

(** C2, the code at the failing input. The field [email] of an edit-mode
    form is mounted and seeded, the user types ["x"], and the field renders
    again, which runs the seeding effect again. The resulting store, which
    is the one after the operations seed, write, seed, has [email] committed
    with the value ["x"] while the displayed state has the initial value:
    the committed state is not a same-valued part of the displayed one. *)
Theorem reseeding_breaks_mirrored :
  Context.store editedAfterSeeding =
    run [SeedField "email" (VStr "a@b.com") (VStr "a@b.com");
         SetField "email" (VStr "x") (VStr "x");
         SeedField "email" (VStr "a@b.com") (VStr "a@b.com")] ∧
  UseState.formState (Context.store editedAfterSeeding) !! "email"
    = Some (VStr "x") ∧
  UseState.displayState (Context.store editedAfterSeeding) !! "email"
    = Some (VStr "a@b.com") ∧
  ¬ mirrored (Context.store editedAfterSeeding).
Proof.
  destruct editedAfterSeeding_email as [Hform Hdisplay].
  split; [vm_compute; reflexivity|]. split; [done|]. split; [done|].
  intros [Hs _]. specialize (Hs "email" (VStr "x") Hform).
  rewrite Hdisplay in Hs. discriminate Hs.
Qed.

(** The effect runs again once the field has been written. The dependency
    of the seeding effect is the committed state of the field,
    [formState.formState[stateKey]]. The field [email] is mounted and its
    first render runs the effect once; the user then types ["x"], which
    changes that dependency, and the next render of the same mounted field
    runs the effect a second time: the displayed value is the initial one
    again and [stateChanged] is false after a user edit. *)
Example seeding_fires_again_after_edit :
  let first :=
    Context.render (Some Context.defaultSetInitialState) emailField
      editInitialState (Context.mount UseState.initialState) in
  Context.fired first = 1 ∧
  Context.store first = seededStore ∧
  Context.fired editedAfterSeeding = 2 ∧
  UseState.displayState (Context.store editedAfterSeeding) !! "email"
    = Some (VStr "a@b.com") ∧
  UseState.stateChanged (Context.store editedAfterSeeding) = false.
Proof.
  cbn zeta. destruct editedAfterSeeding_email as [_ Hdisplay].
  repeat split; try done; vm_compute; reflexivity.
Qed.

(** ** The submit snapshot ([onButtonClick]) *)

(** C5. With the form state [{a: "x"}] written by [setFormState], no error,
    no required handler, no loading and the mounting effect done,
    [onButtonClick()] with its default arguments hands the submit handler an
    event with [id = "submit"], [type = "buttonClick"],
    [state.formState = {a: "x"}], [state.stateChanged = true],
    [formRequired.anyMissing = false] and [errors.formErrors = {}]; the
    loading and mounting flags are false and the button data is [{}]. *)
Theorem onButtonClick_snapshot (mt : JsVal) :
  ∃ ev : Form.FormEvent,
    Form.onButtonClick Form.defaultProps (submitStores mt) None None = Some ev ∧
    Form.id ev = "submit" ∧
    Form.type ev = Form.buttonClick ∧
    Form.formState (Form.state ev) = {[ "a" := VStr "x" ]} ∧
    Form.displayState (Form.state ev) = {[ "a" := VStr "x" ]} ∧
    Form.stateChanged (Form.state ev) = true ∧
    Form.formLoading (Form.state ev) = false ∧
    Form.formMounting (Form.state ev) = false ∧
    Form.anyMissing (Form.formRequired ev) = false ∧
    Form.required (Form.formRequired ev) = ∅ ∧
    Form.formErrors (Form.errors ev) = ∅ ∧
    Form.buttonData ev = ∅.
Proof.
  eexists. split; [reflexivity|]. cbn.
  destruct (setFormState_truthy_state "a" (VStr "x") mt UseState.initialState
              eq_refl) as (-> & -> & ->).
  repeat split; reflexivity.
Qed.

(** ** Required fields ([isMissing]) *)

(** A key that has no registered handler and is not the name of a member
    of [Object.prototype] is not missing. Once the empty handler [{}] is
    registered for [k], whichever key it is, [isMissing(k)] is the negation
    of the truthiness of the current state of [k], for whichever state
    store and error store the call reads. *)
Lemma isMissing_default (reg : UseRequired.RequiredHandlers) (k : string) :
  let missing reg' s errs :=
    UseRequired.isMissing (UseState.getComponentState s)
      (UseError.getComponentError errs) reg' k in
  (∀ s errs, reg !! k = None → inherited k = VUndefined →
             missing reg s errs = UseRequired.Returns false) ∧
  (∀ s errs,
     missing (UseRequired.setRequired k UseRequired.emptyHandler reg) s errs
       = UseRequired.Returns (negb (truthy (UseState.getComponentState s k)))).
Proof.
  cbn zeta. split; intros s errs.
  - intros Hk Hi. unfold UseRequired.isMissing. by rewrite read_plain.
  - unfold UseRequired.isMissing, UseRequired.setRequired,
      UseRequired.dispatch, UseRequired.reducer. cbn.
    by erewrite read_own by apply lookup_insert_eq.
Qed.

(** C6, the code at the failing input. No handler is registered, and
    [isMissing] is asked about a key that names a member of
    [Object.prototype]: [requiredComponents[stateKey]] is the inherited
    member, the guard holds, and the call of its [isRequired], which it does
    not have, throws; [false] is returned for any other unregistered key.
    This holds for whichever state store and error store the call reads. *)
Theorem isMissing_throws_for_inherited_name (s : UseState.FormState)
    (errs : UseError.FormErrors) :
  let missing k :=
    UseRequired.isMissing (UseState.getComponentState s)
      (UseError.getComponentError errs) UseRequired.initialState k in
  missing "constructor" = UseRequired.ThrowsTypeError ∧
  missing "toString" = UseRequired.ThrowsTypeError ∧
  missing "__proto__" = UseRequired.ThrowsTypeError ∧
  missing "email" = UseRequired.Returns false.
Proof. repeat split. Qed.

(** A registered field with the default handler stops being missing as soon
    as a truthy state is written, with no new registration. *)
Example isMissing_follows_state :
  let reg := UseRequired.setRequired "email" UseRequired.emptyHandler
               UseRequired.initialState in
  let edited := UseState.setFormState "email" (VStr "x") VUndefined
                  UseState.initialState in
  UseRequired.isMissing (UseState.getComponentState UseState.initialState)
    (UseError.getComponentError UseError.initialState) reg "email"
    = UseRequired.Returns true ∧
  UseRequired.isMissing (UseState.getComponentState edited)
    (UseError.getComponentError UseError.initialState) reg "email"
    = UseRequired.Returns false.
Proof. split; vm_compute; reflexivity. Qed.

(** ** Errors ([setFormError]) *)

Lemma storedError_eq (key : string) (e : Dict) (s : UseError.FormErrors) :
  storedError key e s
    = Some (e ∪ {[ "displayError" := templateMessage key ]}).
Proof.
  unfold storedError, UseError.setFormError, UseError.dispatch,
    UseError.reducer. cbn. by rewrite lookup_insert_eq.
Qed.

(** C7, as stated, fails: a payload whose own [displayError] is the text of
    the template is stored with that [displayError], although the payload
    supplies it. *)
Lemma own_displayError_may_equal_template :
  ¬ templateIffNotSupplied "a" {[ "displayError" := VStr "a Error" ]}.
Proof.
  intros H.
  destruct (H ∅ _ (storedError_eq "a" _ ∅)) as [Hdefault _].
  assert (({[ "displayError" := VStr "a Error" ]} : Dict) !! "displayError"
          = None) as Habsurd.
  { apply Hdefault. rewrite lookup_union_l'; by rewrite lookup_singleton_eq. }
  rewrite lookup_singleton_eq in Habsurd. discriminate Habsurd.
Qed.

(** C7, amended. [setFormError(k, e)] stores at [k] the payload [e] merged
    over the template: the stored [displayError] is the one of [e] when [e]
    has one and ["<k> Error"] otherwise, every field of [e] is stored with
    the value [e] gives it, and every field other than [displayError] is
    stored only when [e] has it. *)
Theorem setFormError_merges_over_template (k : string) (e : Dict)
    (s : UseError.FormErrors) :
  ∃ stored : Dict,
    UseError.setFormError k e s !! k = Some stored ∧
    stored = e ∪ {[ "displayError" := VStr (k ++ " Error") ]} ∧
    stored !! "displayError"
      = Some (default (VStr (k ++ " Error")) (e !! "displayError")) ∧
    (∀ field, stored !! field =
       match e !! field with
       | Some v => Some v
       | None => if decide (field = "displayError")
                 then Some (VStr (k ++ " Error")) else None
       end).
Proof.
  eexists. split; [apply storedError_eq|]. split; [done|].
  assert (∀ field,
    (e ∪ {[ "displayError" := templateMessage k ]}) !! field =
      match e !! field with
      | Some v => Some v
      | None => if decide (field = "displayError")
                then Some (VStr (k ++ " Error")) else None
      end) as Hfields.
  { intros field. destruct (e !! field) as [v|] eqn:He.
    - by apply lookup_union_Some_l.
    - rewrite lookup_union_r by done. case_decide as Hf.
      + subst. apply lookup_singleton_eq.
      + by apply lookup_singleton_ne. }
  split; [|done].
  rewrite Hfields. destruct (e !! "displayError"); [done|].
  by rewrite decide_True.
Qed.

(** * Further properties of the stores *)

(** ** The state store (use-state.ts) *)

Lemma setFormState_eq (key : string) (st mt : JsVal) (s : UseState.FormState) :
  UseState.setFormState key st mt s =
    {| UseState.formState :=
         if truthy st then <[key := st]> (UseState.formState s)
         else UseState.formState s;
       UseState.displayState :=
         if truthy st then <[key := st]> (UseState.displayState s)
         else UseState.displayState s;
       UseState.formMeta :=
         if truthy mt then <[key := mt]> (UseState.formMeta s)
         else UseState.formMeta s;
       UseState.displayMeta :=
         if truthy mt then <[key := mt]> (UseState.displayMeta s)
         else UseState.displayMeta s;
       UseState.stateChanged :=
         if truthy st || truthy mt then true else UseState.stateChanged s |}.
Proof.
  unfold UseState.setFormState.
  destruct s, (truthy st), (truthy mt); reflexivity.
Qed.

(** X1. [setFormState(k, state, meta)] leaves every other key [j] of the
    four mappings as it was, whatever the two values are. *)
Theorem setFormState_other_keys (k j : string) (st mt : JsVal)
    (s : UseState.FormState) :
  j ≠ k →
  let s' := UseState.setFormState k st mt s in
  UseState.formState s' !! j = UseState.formState s !! j ∧
  UseState.displayState s' !! j = UseState.displayState s !! j ∧
  UseState.formMeta s' !! j = UseState.formMeta s !! j ∧
  UseState.displayMeta s' !! j = UseState.displayMeta s !! j.
Proof.
  intros Hne. cbn zeta. rewrite setFormState_eq. cbn.
  destruct (truthy st), (truthy mt);
    by rewrite ?lookup_insert_ne.
Qed.

Lemma setFormState_other_keys_witness :
  let s' := UseState.setFormState "name" (VStr "x") (VStr "y") seededStore in
  UseState.formState s' !! "email" = UseState.formState seededStore !! "email" ∧
  UseState.displayState s' !! "email"
    = UseState.displayState seededStore !! "email" ∧
  UseState.formMeta s' !! "email" = UseState.formMeta seededStore !! "email" ∧
  UseState.displayMeta s' !! "email"
    = UseState.displayMeta seededStore !! "email".
Proof.
  apply (setFormState_other_keys "name" "email" (VStr "x") (VStr "y")
           seededStore).
  discriminate.
Defined.

(** X2. The last write wins: a write of a truthy state and a truthy meta at
    [k] leaves the store that the same write leaves without the write at
    [k] before it. *)
Theorem setFormState_overwrites (k : string) (st1 mt1 st2 mt2 : JsVal)
    (s : UseState.FormState) :
  truthy st2 = true → truthy mt2 = true →
  UseState.setFormState k st2 mt2 (UseState.setFormState k st1 mt1 s)
    = UseState.setFormState k st2 mt2 s.
Proof.
  intros H2 Hm2. rewrite !setFormState_eq. cbn. rewrite H2, Hm2. cbn.
  destruct (truthy st1), (truthy mt1); by rewrite ?insert_insert_eq.
Qed.

Lemma setFormState_overwrites_witness :
  UseState.setFormState "a" (VStr "x2") (VObj 2)
    (UseState.setFormState "a" (VStr "x1") (VObj 1) UseState.initialState)
  = UseState.setFormState "a" (VStr "x2") (VObj 2) UseState.initialState.
Proof.
  apply (setFormState_overwrites "a" (VStr "x1") (VObj 1) (VStr "x2") (VObj 2)
           UseState.initialState); reflexivity.
Defined.

(** X3. A call of [setFormState] whose state and meta are both falsy
    dispatches nothing: the store, [stateChanged] included, is the one of
    before. *)
Theorem setFormState_falsy_is_identity (k : string) (st mt : JsVal)
    (s : UseState.FormState) :
  truthy st = false → truthy mt = false →
  UseState.setFormState k st mt s = s.
Proof.
  intros Hst Hmt. unfold UseState.setFormState. by rewrite Hst, Hmt.
Qed.

Lemma setFormState_falsy_is_identity_witness :
  UseState.setFormState "a" (VStr "") VUndefined seededStore = seededStore.
Proof.
  apply (setFormState_falsy_is_identity "a" (VStr "") VUndefined seededStore);
    reflexivity.
Defined.

(** X4. A truthy meta is written at [k] in the committed and in the
    displayed meta, is what [getComponentMeta(k)] then returns, and marks
    the store changed, whether or not a state comes with it. *)
Theorem setFormState_writes_meta (k : string) (st mt : JsVal)
    (s : UseState.FormState) :
  truthy mt = true →
  let s' := UseState.setFormState k st mt s in
  UseState.formMeta s' !! k = Some mt ∧
  UseState.displayMeta s' !! k = Some mt ∧
  UseState.getComponentMeta s' k = mt ∧
  UseState.stateChanged s' = true.
Proof.
  intros Hmt. cbn zeta. unfold UseState.getComponentMeta, prop.
  rewrite setFormState_eq. cbn. rewrite Hmt, !lookup_insert_eq.
  by rewrite orb_true_r.
Qed.

Lemma setFormState_writes_meta_witness :
  let s' := UseState.setFormState "a" VUndefined (VObj 7) UseState.initialState in
  UseState.formMeta s' !! "a" = Some (VObj 7) ∧
  UseState.displayMeta s' !! "a" = Some (VObj 7) ∧
  UseState.getComponentMeta s' "a" = VObj 7 ∧
  UseState.stateChanged s' = true.
Proof.
  apply (setFormState_writes_meta "a" VUndefined (VObj 7) UseState.initialState).
  reflexivity.
Defined.

(** X5. Seeding never touches the committed state or meta, leaves every
    other key of the displayed mappings as it was, and never turns
    [stateChanged] on. *)
Theorem initialSetter_frame (k j : string) (st mt : JsVal)
    (s : UseState.FormState) :
  j ≠ k →
  let s' := UseState.initialSetter k st mt s in
  UseState.formState s' = UseState.formState s ∧
  UseState.formMeta s' = UseState.formMeta s ∧
  UseState.displayState s' !! j = UseState.displayState s !! j ∧
  UseState.displayMeta s' !! j = UseState.displayMeta s !! j ∧
  UseState.stateChanged s' && negb (UseState.stateChanged s) = false.
Proof.
  intros Hne. cbn zeta. rewrite initialSetter_eq. cbn.
  destruct (truthy st), (truthy mt), (UseState.stateChanged s); cbn;
    by rewrite ?lookup_insert_ne.
Qed.

Lemma initialSetter_frame_witness :
  let s0 := UseState.setFormState "name" (VStr "x") VUndefined
              UseState.initialState in
  let s' := UseState.initialSetter "email" (VStr "a@b.com") (VStr "a@b.com") s0 in
  UseState.formState s' = UseState.formState s0 ∧
  UseState.formMeta s' = UseState.formMeta s0 ∧
  UseState.displayState s' !! "name" = UseState.displayState s0 !! "name" ∧
  UseState.displayMeta s' !! "name" = UseState.displayMeta s0 !! "name" ∧
  UseState.stateChanged s' && negb (UseState.stateChanged s0) = false.
Proof.
  apply (initialSetter_frame "email" "name" (VStr "a@b.com") (VStr "a@b.com")
           (UseState.setFormState "name" (VStr "x") VUndefined
              UseState.initialState)).
  discriminate.
Defined.

(** X6. Edit mode: a field that is seeded with a truthy value and has no
    committed state shows the seeded value through [getComponentState]
    while its committed state stays absent; a later write of a truthy value
    makes the committed and the displayed value both the written one. *)
Theorem seeded_then_edited (k : string) (v mt w mw : JsVal)
    (s : UseState.FormState) :
  truthy v = true → truthy w = true →
  UseState.formState s !! k = None →
  let seeded := UseState.initialSetter k v mt s in
  let edited := UseState.setFormState k w mw seeded in
  UseState.getComponentState seeded k = v ∧
  UseState.formState seeded !! k = None ∧
  UseState.getComponentState edited k = w ∧
  UseState.formState edited !! k = Some w.
Proof.
  intros Hv Hw Hk. cbn zeta. unfold UseState.getComponentState, prop.
  rewrite setFormState_eq, initialSetter_eq. cbn. rewrite Hv, Hw.
  by rewrite !lookup_insert_eq.
Qed.

Lemma seeded_then_edited_witness :
  let seeded := UseState.initialSetter "email" (VStr "a@b.com") VUndefined
                  UseState.initialState in
  let edited := UseState.setFormState "email" (VStr "x") VUndefined seeded in
  UseState.getComponentState seeded "email" = VStr "a@b.com" ∧
  UseState.formState seeded !! "email" = None ∧
  UseState.getComponentState edited "email" = VStr "x" ∧
  UseState.formState edited !! "email" = Some (VStr "x").
Proof.
  apply (seeded_then_edited "email" (VStr "a@b.com") VUndefined (VStr "x")
           VUndefined UseState.initialState); reflexivity.
Defined.

(** X7. Removing a key twice is removing it once, and two removals can be
    done in either order. *)
Theorem removeFormState_idempotent_commutes (k j : string)
    (s : UseState.FormState) :
  UseState.removeFormState k (UseState.removeFormState k s)
    = UseState.removeFormState k s ∧
  UseState.removeFormState k (UseState.removeFormState j s)
    = UseState.removeFormState j (UseState.removeFormState k s).
Proof.
  rewrite !removeFormState_eq.
  cbn [UseState.formState UseState.displayState UseState.formMeta
       UseState.displayMeta].
  split; f_equal; map_by_lookup.
Qed.

(** X8. A removal of [k] undoes the write at [k] that came just before it:
    the store is the one the removal alone leaves. *)
Theorem removeFormState_after_setFormState (k : string) (st mt : JsVal)
    (s : UseState.FormState) :
  UseState.removeFormState k (UseState.setFormState k st mt s)
    = UseState.removeFormState k s.
Proof.
  rewrite !removeFormState_eq, setFormState_eq.
  cbn [UseState.formState UseState.displayState UseState.formMeta
       UseState.displayMeta].
  destruct (truthy st), (truthy mt); f_equal; map_by_lookup.
Qed.

(** X10. [stateChanged] does not record that an edit was made: seeding a
    truthy value, for any field, after a write puts the flag back to false
    while the written value stays committed. *)
Theorem seeding_clears_changed_flag (k j : string) (v mt w mw : JsVal)
    (s : UseState.FormState) :
  truthy v = true → truthy w = true →
  let edited := UseState.setFormState j w mw s in
  let s' := UseState.initialSetter k v mt edited in
  UseState.stateChanged edited = true ∧
  UseState.stateChanged s' = false ∧
  UseState.formState s' !! j = Some w.
Proof.
  intros Hv Hw. cbn zeta. rewrite initialSetter_eq, setFormState_eq. cbn.
  rewrite Hv, Hw. cbn. by rewrite lookup_insert_eq.
Qed.

Lemma seeding_clears_changed_flag_witness :
  let edited := UseState.setFormState "name" (VStr "x") VUndefined
                  UseState.initialState in
  let s' := UseState.initialSetter "email" (VStr "a@b.com") VUndefined edited in
  UseState.stateChanged edited = true ∧
  UseState.stateChanged s' = false ∧
  UseState.formState s' !! "name" = Some (VStr "x").
Proof.
  apply (seeding_clears_changed_flag "email" "name" (VStr "a@b.com") VUndefined
           (VStr "x") VUndefined UseState.initialState); reflexivity.
Defined.

(** Every operation keeps the values of the four mappings truthy. *)
Lemma allTruthy_insert (o : Dict) (key : string) (v : JsVal) :
  truthy v = true → allTruthy o → allTruthy (<[key := v]> o).
Proof.
  intros Hv Ho j w. destruct (decide (j = key)) as [->|Hne].
  - rewrite lookup_insert_eq. by intros [= <-].
  - rewrite lookup_insert_ne by done. apply Ho.
Qed.

Lemma allTruthy_delete (o : Dict) (key : string) :
  allTruthy o → allTruthy (delete key o).
Proof.
  intros Ho j w Hj. apply lookup_delete_Some in Hj as [_ Hj]. by eapply Ho.
Qed.

Lemma allTruthy_applyOp (s : UseState.FormState) (o : Op) :
  allTruthy (UseState.formState s) ∧ allTruthy (UseState.displayState s) ∧
  allTruthy (UseState.formMeta s) ∧ allTruthy (UseState.displayMeta s) →
  allTruthy (UseState.formState (applyOp s o)) ∧
  allTruthy (UseState.displayState (applyOp s o)) ∧
  allTruthy (UseState.formMeta (applyOp s o)) ∧
  allTruthy (UseState.displayMeta (applyOp s o)).
Proof.
  intros (Hfs & Hds & Hfm & Hdm).
  destruct o as [key st mt|key|key st mt]; cbn [applyOp].
  - rewrite setFormState_eq. cbn.
    destruct (truthy st) eqn:Hst, (truthy mt) eqn:Hmt;
      repeat split; auto using allTruthy_insert.
  - rewrite removeFormState_eq. cbn.
    repeat split; auto using allTruthy_delete.
  - rewrite initialSetter_eq. cbn.
    destruct (truthy st) eqn:Hst, (truthy mt) eqn:Hmt;
      repeat split; auto using allTruthy_insert.
Qed.

(** X9. Along every sequence of writes, removals and seedings from the
    empty store, each value held by the four mappings is truthy; so
    [getComponentState(k)] is truthy for every key [k] that the displayed
    state holds. *)
Theorem run_values_truthy (ops : list Op) :
  (allTruthy (UseState.formState (run ops)) ∧
   allTruthy (UseState.displayState (run ops)) ∧
   allTruthy (UseState.formMeta (run ops)) ∧
   allTruthy (UseState.displayMeta (run ops))) ∧
  (∀ k, is_Some (UseState.displayState (run ops) !! k) →
        truthy (UseState.getComponentState (run ops) k) = true).
Proof.
  assert (∀ s,
    allTruthy (UseState.formState s) ∧ allTruthy (UseState.displayState s) ∧
    allTruthy (UseState.formMeta s) ∧ allTruthy (UseState.displayMeta s) →
    allTruthy (UseState.formState (foldl applyOp s ops)) ∧
    allTruthy (UseState.displayState (foldl applyOp s ops)) ∧
    allTruthy (UseState.formMeta (foldl applyOp s ops)) ∧
    allTruthy (UseState.displayMeta (foldl applyOp s ops))) as Hrun.
  { induction ops as [|o ops IH]; intros s Hs; [done|].
    cbn [foldl]. by apply IH, allTruthy_applyOp. }
  assert (allTruthy (UseState.formState (run ops)) ∧
          allTruthy (UseState.displayState (run ops)) ∧
          allTruthy (UseState.formMeta (run ops)) ∧
          allTruthy (UseState.displayMeta (run ops))) as Hall.
  { apply Hrun. repeat split; intros j v Hj; cbn in Hj;
      by rewrite lookup_empty in Hj. }
  split; [done|].
  destruct Hall as (_ & Hds & _). intros k [v Hk].
  unfold UseState.getComponentState. rewrite (prop_lookup _ _ _ Hk).
  by eapply Hds.
Qed.

(** ** The error store (use-error.ts) *)

Lemma setFormError_eq (key : string) (e : Dict) (s : UseError.FormErrors) :
  UseError.setFormError key e s
    = <[key := e ∪ {[ "displayError" := VStr (key ++ " Error") ]}]> s.
Proof. reflexivity. Qed.

Lemma removeFormError_eq (key : string) (s : UseError.FormErrors) :
  UseError.removeFormError key s = delete key s.
Proof.
  unfold UseError.removeFormError, UseError.dispatch, UseError.reducer, read.
  cbn. destruct (s !! key) eqn:Hk; [done|].
  destruct (inherited key); by rewrite ?delete_id.
Qed.

(** X11. [removeFormError(k)] leaves the store without an entry for [k],
    so that [getComponentError(k)] is what it is on the empty store
    ([undefined], or the inherited member when [k] names a member of
    [Object.prototype]), and leaves every other key with the error it
    had. *)
Theorem removeFormError_removes (k j : string) (s : UseError.FormErrors) :
  j ≠ k →
  UseError.removeFormError k s !! k = None ∧
  UseError.getComponentError (UseError.removeFormError k s) k
    = UseError.getComponentError UseError.initialState k ∧
  UseError.getComponentError (UseError.removeFormError k s) j
    = UseError.getComponentError s j.
Proof.
  intros Hne. unfold UseError.getComponentError, UseError.initialState, read.
  rewrite removeFormError_eq.
  by rewrite lookup_delete_eq, lookup_delete_ne, lookup_empty.
Qed.

Lemma removeFormError_removes_witness :
  let s := UseError.setFormError "a" ∅
             (UseError.setFormError "b" ∅ UseError.initialState) in
  UseError.removeFormError "a" s !! "a" = None ∧
  UseError.getComponentError (UseError.removeFormError "a" s) "a"
    = UseError.getComponentError UseError.initialState "a" ∧
  UseError.getComponentError (UseError.removeFormError "a" s) "b"
    = UseError.getComponentError s "b".
Proof.
  apply (removeFormError_removes "a" "b"
           (UseError.setFormError "a" ∅
              (UseError.setFormError "b" ∅ UseError.initialState))).
  discriminate.
Defined.

(** X12. For a key that has no error, [removeFormError] returns the store
    it was given, and setting an error and removing it again gives back
    that store. *)
Theorem removeFormError_absent (k : string) (e : Dict)
    (s : UseError.FormErrors) :
  s !! k = None →
  UseError.removeFormError k s = s ∧
  UseError.removeFormError k (UseError.setFormError k e s) = s.
Proof.
  intros Hk. rewrite !removeFormError_eq, setFormError_eq.
  by rewrite delete_insert_eq, delete_id.
Qed.

Lemma removeFormError_absent_witness :
  UseError.removeFormError "a" UseError.initialState = UseError.initialState ∧
  UseError.removeFormError "a"
    (UseError.setFormError "a" {[ "code" := VNum 3 ]} UseError.initialState)
  = UseError.initialState.
Proof.
  apply (removeFormError_absent "a" {[ "code" := VNum 3 ]}
           UseError.initialState).
  reflexivity.
Defined.

(** X13. A second error for a key replaces the first one: the payloads are
    not merged, and the store is the one the second call alone leaves. *)
Theorem setFormError_replaces (k : string) (e1 e2 : Dict)
    (s : UseError.FormErrors) :
  UseError.setFormError k e2 (UseError.setFormError k e1 s)
    = UseError.setFormError k e2 s.
Proof. rewrite !setFormError_eq. apply insert_insert_eq. Qed.

(** X14. Every error held by the store, after any sequence of
    [setFormError] and [removeFormError] calls, has a [displayError]
    property. *)
Theorem runErrors_have_displayError (ops : list ErrorOp) (k : string)
    (stored : Dict) :
  runErrors ops !! k = Some stored → is_Some (stored !! "displayError").
Proof.
  unfold runErrors.
  assert (∀ s : UseError.FormErrors,
    (∀ j e, s !! j = Some e → is_Some (e !! "displayError")) →
    ∀ j e, foldl applyErrorOp s ops !! j = Some e →
           is_Some (e !! "displayError")) as Hrun.
  { induction ops as [|o ops IH]; intros s Hs; [done|].
    cbn [foldl]. apply IH. intros j e.
    destruct o as [key err|key]; cbn [applyErrorOp].
    - rewrite setFormError_eq. destruct (decide (j = key)) as [->|Hne].
      + rewrite lookup_insert_eq. intros [= <-].
        destruct (err !! "displayError") as [v|] eqn:He.
        * exists v. by apply lookup_union_Some_l.
        * rewrite lookup_union_r by done. by rewrite lookup_singleton_eq.
      + rewrite lookup_insert_ne by done. apply Hs.
    - rewrite removeFormError_eq. intros Hj.
      apply lookup_delete_Some in Hj as [_ Hj]. by eapply Hs. }
  apply Hrun. intros j e Hj. unfold UseError.initialState in Hj.
  by rewrite lookup_empty in Hj.
Qed.

Lemma runErrors_have_displayError_witness :
  is_Some (({[ "code" := VNum 3 ]} ∪ {[ "displayError" := VStr "a Error" ]} : Dict)
             !! "displayError").
Proof.
  apply (runErrors_have_displayError [SetError "a" {[ "code" := VNum 3 ]}] "a").
  vm_compute. reflexivity.
Defined.

(** ** The loading store (use-loading.ts) *)

Lemma enableLoading_eq (key : string) (s : UseLoading.FormLoading) :
  UseLoading.enableLoading key s = <[key := true]> s.
Proof. reflexivity. Qed.

Lemma formLoading_iff (s : UseLoading.FormLoading) :
  UseLoading.formLoading s = true ↔ s ≠ ∅.
Proof.
  unfold UseLoading.formLoading, Object_keys. rewrite length_fmap.
  rewrite <- (map_to_list_empty_iff s).
  destruct (map_to_list s); cbn; split; done.
Qed.

(** X15. [enableLoading(k)] marks [k] as loading and the form as loading,
    leaves the loading status of every other key as it was, and is
    idempotent. *)
Theorem enableLoading_marks (k j : string) (s : UseLoading.FormLoading) :
  j ≠ k →
  UseLoading.isLoading (UseLoading.enableLoading k s) k = true ∧
  UseLoading.formLoading (UseLoading.enableLoading k s) = true ∧
  UseLoading.isLoading (UseLoading.enableLoading k s) j
    = UseLoading.isLoading s j ∧
  UseLoading.enableLoading k (UseLoading.enableLoading k s)
    = UseLoading.enableLoading k s.
Proof.
  intros Hne. unfold UseLoading.isLoading, read. rewrite !enableLoading_eq.
  rewrite lookup_insert_eq, lookup_insert_ne, insert_insert_eq by done.
  repeat split; try done.
  apply formLoading_iff. apply insert_non_empty.
Qed.

Lemma enableLoading_marks_witness :
  UseLoading.isLoading (UseLoading.enableLoading "a" UseLoading.initialState) "a"
    = true ∧
  UseLoading.formLoading (UseLoading.enableLoading "a" UseLoading.initialState)
    = true ∧
  UseLoading.isLoading (UseLoading.enableLoading "a" UseLoading.initialState) "b"
    = UseLoading.isLoading UseLoading.initialState "b" ∧
  UseLoading.enableLoading "a"
    (UseLoading.enableLoading "a" UseLoading.initialState)
    = UseLoading.enableLoading "a" UseLoading.initialState.
Proof.
  apply (enableLoading_marks "a" "b" UseLoading.initialState). discriminate.
Defined.

Lemma disableLoading_lookup (k j : string) (s : UseLoading.FormLoading) :
  UseLoading.disableLoading k s !! j =
    if decide (j = k ∧ s !! k = Some true) then None else s !! j.
Proof.
  unfold UseLoading.disableLoading, UseLoading.dispatch, UseLoading.reducer,
    read. cbn.
  destruct (s !! k) as [[|]|] eqn:Hk.
  - destruct (decide (j = k)) as [->|Hne].
    + rewrite lookup_delete_eq. by rewrite decide_True.
    + rewrite lookup_delete_ne by done. rewrite decide_False; [done|].
      by intros [? _].
  - rewrite decide_False; [done|]. by intros [_ ?].
  - assert (delete k s = s) as Hid by by apply delete_id.
    destruct (inherited k); rewrite ?Hid;
      (rewrite decide_False; [done|]; by intros [_ ?]).
Qed.



(** X17. For a key that is not in the loading store, [disableLoading]
    returns the store it was given, and enabling then disabling gives back
    that store. *)
Theorem disableLoading_absent (k : string) (s : UseLoading.FormLoading) :
  s !! k = None →
  UseLoading.disableLoading k s = s ∧
  UseLoading.disableLoading k (UseLoading.enableLoading k s) = s.
Proof.
  intros Hk. rewrite enableLoading_eq. split; apply map_eq; intros j;
    rewrite disableLoading_lookup.
  - rewrite decide_False; [done|]. intros [_ H]. by rewrite Hk in H.
  - rewrite lookup_insert_eq. destruct (decide (j = k)) as [->|Hne].
    + by rewrite decide_True.
    + rewrite decide_False by (by intros [? _]). by rewrite lookup_insert_ne.
Qed.

Lemma disableLoading_absent_witness :
  UseLoading.disableLoading "a" UseLoading.initialState
    = UseLoading.initialState ∧
  UseLoading.disableLoading "a"
    (UseLoading.enableLoading "a" UseLoading.initialState)
    = UseLoading.initialState.
Proof.
  apply (disableLoading_absent "a" UseLoading.initialState). reflexivity.
Defined.

Lemma runLoading_values (ops : list LoadingOp) (k : string) (b : bool) :
  runLoading ops !! k = Some b → b = true.
Proof.
  unfold runLoading.
  assert (∀ s : UseLoading.FormLoading,
    (∀ j c, s !! j = Some c → c = true) →
    ∀ j c, foldl applyLoadingOp s ops !! j = Some c → c = true) as Hrun.
  { induction ops as [|o ops IH]; intros s Hs; [done|].
    cbn [foldl]. apply IH. intros j c.
    destruct o as [key|key]; cbn [applyLoadingOp].
    - rewrite enableLoading_eq. destruct (decide (j = key)) as [->|Hne].
      + rewrite lookup_insert_eq. by intros [= <-].
      + rewrite lookup_insert_ne by done. apply Hs.
    - rewrite disableLoading_lookup. case_decide; [done|]. apply Hs. }
  apply Hrun. intros j c Hj. unfold UseLoading.initialState in Hj.
  by rewrite lookup_empty in Hj.
Qed.

(** X18. After any sequence of [enableLoading] and [disableLoading] calls,
    the form is loading exactly when the store holds some key as loading,
    and [isLoading(k)] is true exactly when the store holds [k] as loading
    or [k] names a member of [Object.prototype]. *)
Theorem formLoading_iff_some_field (ops : list LoadingOp) :
  (UseLoading.formLoading (runLoading ops) = true
   ↔ ∃ k, runLoading ops !! k = Some true) ∧
  (∀ k, UseLoading.isLoading (runLoading ops) k = true
        ↔ runLoading ops !! k = Some true ∨ k ∈ objectPrototypeMembers).
Proof.
  split.
  - rewrite formLoading_iff. split.
    + intros Hne. apply map_choose in Hne as (k & b & Hk).
      exists k. by rewrite Hk, (runLoading_values ops k b Hk).
    + intros [k Hk] Hempty. rewrite Hempty, lookup_empty in Hk. discriminate Hk.
  - intros k. unfold UseLoading.isLoading, read.
    destruct (runLoading ops !! k) as [b|] eqn:Hk.
    + rewrite (runLoading_values ops k b Hk). split; [by left|done].
    + destruct (inherited_cases k) as [[Hin ->]|[Hnin ->]].
      * split; [by right|done].
      * split; [done|]. by intros [?|?].
Qed.

(** ** The registry of required fields (use-required.ts) *)

Section Required.

Variable getState : string → JsVal.
Variable getError : string → Read Dict.
Variable reg : UseRequired.RequiredHandlers.

(** One step of the [forEach] of [getFormRequired], on a result that has
    no own [__proto__]. *)
Lemma addMessage_lookup (acc : UseRequired.RequiredElementMessages)
    (key k : string) :
  acc !! "__proto__" = None →
  UseRequired.addMessage getState getError reg acc key !! k =
    match reg !! key with
    | Some h =>
        if decide (k = key ∧ key ≠ "__proto__")
        then Some (messageOf getState getError key h) else acc !! k
    | None => acc !! k
    end.
Proof.
  intros Hproto. unfold UseRequired.addMessage.
  destruct (reg !! key) as [h|]; [|done]. by rewrite assign_lookup.
Qed.

(** What the [forEach] leaves at [k] after a list of keys. *)
Lemma foldl_addMessage_lookup (keys : list string)
    (acc : UseRequired.RequiredElementMessages) (k : string) :
  acc !! "__proto__" = None →
  foldl (UseRequired.addMessage getState getError reg) acc keys !! k =
    match (if decide (k ∈ keys ∧ k ≠ "__proto__") then reg !! k else None) with
    | Some h => Some (messageOf getState getError k h)
    | None => acc !! k
    end.
Proof.
  revert acc. induction keys as [|key keys IH]; intros acc Hproto; cbn [foldl].
  - rewrite decide_False; [done|]. intros [H _]. by apply elem_of_nil in H.
  - assert (UseRequired.addMessage getState getError reg acc key
              !! "__proto__" = None) as Hproto'.
    { rewrite addMessage_lookup by done. destruct (reg !! key); [|done].
      rewrite decide_False; [done|]. intros [<- ?]. done. }
    rewrite (IH _ Hproto'), addMessage_lookup by done.
    destruct (decide (k ∈ keys ∧ k ≠ "__proto__")) as [[Hin Hp]|Hno].
    + rewrite (decide_True (P := k ∈ key :: keys ∧ k ≠ "__proto__"))
        by (split; [by right|done]).
      destruct (reg !! k) as [h|] eqn:Hk; [done|].
      destruct (reg !! key) as [h'|] eqn:Hkey; [|done].
      rewrite decide_False; [done|]. intros [-> _]. congruence.
    + destruct (decide (k ∈ key :: keys ∧ k ≠ "__proto__")) as [[Hin Hp]|Hno'].
      * assert (k = key) as ->.
        { apply elem_of_cons in Hin as [?|Hin]; [done|]. by destruct Hno. }
        destruct (reg !! key) as [h|]; [|done]. by rewrite decide_True.
      * destruct (reg !! key) as [h|]; [|done].
        rewrite decide_False; [done|]. intros [-> Hp]. apply Hno'.
        split; [by left|done].
Qed.

Lemma getFormRequired_lookup (k : string) :
  UseRequired.getFormRequired getState getError reg !! k =
    if decide (k = "__proto__") then None
    else messageOf getState getError k <$> reg !! k.
Proof.
  unfold UseRequired.getFormRequired.
  rewrite foldl_addMessage_lookup by apply lookup_empty.
  rewrite lookup_empty.
  destruct (decide (k = "__proto__")) as [->|Hp].
  - rewrite decide_False; [done|]. by intros [_ ?].
  - destruct (reg !! k) as [h|] eqn:Hk; cbn.
    + rewrite decide_True; [done|]. split; [|done].
      apply elem_of_Object_keys. by exists h.
    + by case_decide.
Qed.

Lemma foldl_missing (l : list UseRequired.RequiredElementMessage) (b : bool) :
  foldl (fun (missing : bool) (m : UseRequired.RequiredElementMessage) =>
           if UseRequired.isMissingNow m then true else missing) b l = true
  ↔ b = true ∨ ∃ m, m ∈ l ∧ UseRequired.isMissingNow m = true.
Proof.
  revert b. induction l as [|m l IH]; intros b; cbn [foldl].
  - split; [by left|]. intros [?|(m & Hm & _)]; [done|].
    by apply elem_of_nil in Hm.
  - rewrite IH. split.
    + intros [Hb|(m' & Hin & Hm')].
      * destruct (UseRequired.isMissingNow m) eqn:Hm.
        -- right. exists m. split; [left|done].
        -- by left.
      * right. exists m'. split; [by right|done].
    + intros [->|(m' & Hin & Hm')].
      * left. by destruct (UseRequired.isMissingNow m).
      * apply elem_of_cons in Hin as [->|Hin].
        -- left. by rewrite Hm'.
        -- right. by exists m'.
Qed.

Lemma anyMissing_iff_message :
  UseRequired.anyMissing getState getError reg = true
  ↔ ∃ k m, UseRequired.getFormRequired getState getError reg !! k = Some m
           ∧ UseRequired.isMissingNow m = true.
Proof.
  unfold UseRequired.anyMissing. rewrite foldl_missing. split.
  - intros [?|(m & Hin & Hm)]; [done|].
    apply list_elem_of_fmap in Hin as [[k m'] [-> Hin]].
    apply elem_of_map_to_list in Hin. by exists k, m'.
  - intros (k & m & Hk & Hm). right. exists m. split; [|done].
    apply list_elem_of_fmap. exists (k, m). split; [done|].
    by apply elem_of_map_to_list.
Qed.

End Required.

(** X19. [getFormRequired()] has one entry for each registered key other
    than [__proto__] and no other entry: the entry of [k] carries the
    display message of the handler of [k] and, as [isMissing], the value
    that [isMissing(k)] returns for the same stores. *)
Theorem getFormRequired_entries (getState : string → JsVal)
    (getError : string → Read Dict) (reg : UseRequired.RequiredHandlers)
    (k : string) :
  (UseRequired.getFormRequired getState getError reg !! k =
     if decide (k = "__proto__") then None
     else (fun h =>
             {| UseRequired.msgDisplayMessage := UseRequired.displayMessage h;
                UseRequired.isMissingNow :=
                  UseRequired.isRequired h (getState k) (getError k) |})
          <$> reg !! k) ∧
  (∀ m, UseRequired.getFormRequired getState getError reg !! k = Some m →
        UseRequired.isMissing getState getError reg k
          = UseRequired.Returns (UseRequired.isMissingNow m)).
Proof.
  rewrite getFormRequired_lookup. split; [done|].
  intros m. case_decide; [done|]. unfold UseRequired.isMissing.
  destruct (reg !! k) as [h|] eqn:Hk; [|done].
  intros [= <-]. by rewrite (read_own _ _ _ Hk).
Qed.

(** X20. [anyMissing()] is true exactly when some registered key other
    than [__proto__] has a handler whose [isRequired] holds of the current
    state and error of that key, whatever the order in which the keys are
    visited. *)
Theorem anyMissing_iff (getState : string → JsVal)
    (getError : string → Read Dict) (reg : UseRequired.RequiredHandlers) :
  UseRequired.anyMissing getState getError reg = true
  ↔ ∃ k h, k ≠ "__proto__" ∧ reg !! k = Some h
           ∧ UseRequired.isRequired h (getState k) (getError k) = true.
Proof.
  rewrite anyMissing_iff_message. split.
  - intros (k & m & Hk & Hm). rewrite getFormRequired_lookup in Hk.
    case_decide as Hp; [done|].
    destruct (reg !! k) as [h|] eqn:Hreg; [|done].
    injection Hk as <-. by exists k, h.
  - intros (k & h & Hp & Hreg & Hh).
    exists k, (messageOf getState getError k h).
    rewrite getFormRequired_lookup, Hreg. by rewrite decide_False.
Qed.

(** X21. Registering a handler for [k] changes what is required of [k]
    only: every other key is missing or not as before. For [k] itself the
    supplied [isRequired] decides, or the default [state => !state] when
    none is supplied; the message is the supplied one or
    ["<k> Missing and Required"]; and a registration replaces the one
    before it. *)
Theorem setRequired_handler (getState : string → JsVal)
    (getError : string → Read Dict) (reg : UseRequired.RequiredHandlers)
    (k j : string) (r r0 : UseRequired.Supplied) :
  j ≠ k →
  let reg' := UseRequired.setRequired k r reg in
  UseRequired.isMissing getState getError reg' j
    = UseRequired.isMissing getState getError reg j ∧
  UseRequired.isMissing getState getError reg' k
    = UseRequired.Returns
        (default (fun st _ => negb (truthy st))
           (UseRequired.suppliedIsRequired r) (getState k) (getError k)) ∧
  UseRequired.displayMessage <$> UseRequired.getComponentRequired reg' k
    = Own (default (k ++ " Missing and Required")
             (UseRequired.suppliedMessage r)) ∧
  UseRequired.setRequired k r (UseRequired.setRequired k r0 reg) = reg'.
Proof.
  intros Hne. cbn zeta.
  unfold UseRequired.isMissing, UseRequired.getComponentRequired,
    UseRequired.setRequired, UseRequired.dispatch, UseRequired.reducer, read.
  cbn. rewrite lookup_insert_eq, lookup_insert_ne, insert_insert_eq by done.
  done.
Qed.

Lemma setRequired_handler_witness :
  let getState := UseState.getComponentState seededStore in
  let getError := UseError.getComponentError UseError.initialState in
  let r := {| UseRequired.suppliedMessage := Some "Name is needed";
              UseRequired.suppliedIsRequired := None |} in
  let reg' := UseRequired.setRequired "name" r UseRequired.initialState in
  UseRequired.isMissing getState getError reg' "email"
    = UseRequired.isMissing getState getError UseRequired.initialState "email" ∧
  UseRequired.isMissing getState getError reg' "name"
    = UseRequired.Returns
        (default (fun st _ => negb (truthy st))
           (UseRequired.suppliedIsRequired r) (getState "name")
           (getError "name")) ∧
  UseRequired.displayMessage <$> UseRequired.getComponentRequired reg' "name"
    = Own (default ("name" ++ " Missing and Required")
             (UseRequired.suppliedMessage r)) ∧
  UseRequired.setRequired "name" r
    (UseRequired.setRequired "name" UseRequired.emptyHandler
       UseRequired.initialState) = reg'.
Proof.
  apply (setRequired_handler (UseState.getComponentState seededStore)
           (UseError.getComponentError UseError.initialState)
           UseRequired.initialState "name" "email").
  discriminate.
Defined.

(** X22. The registry never loses a handler: whatever action is
    dispatched, a key that was registered still is. *)
Theorem required_reducer_keeps_keys (reg : UseRequired.RequiredHandlers)
    (action : UseRequired.ReducerAction) (k : string) :
  is_Some (reg !! k) → is_Some (UseRequired.reducer reg action !! k).
Proof.
  intros Hk. unfold UseRequired.reducer.
  destruct (UseRequired.type action); [|done].
  destruct (decide (k = UseRequired.stateKey action)) as [->|Hne].
  - rewrite lookup_insert_eq. by eexists.
  - by rewrite lookup_insert_ne.
Qed.

Lemma required_reducer_keeps_keys_witness :
  is_Some
    (UseRequired.reducer
       (UseRequired.setRequired "a" UseRequired.emptyHandler
          UseRequired.initialState)
       (UseRequired.mkAction UseRequired.ADD "b" UseRequired.emptyHandler)
     !! "a").
Proof.
  apply (required_reducer_keeps_keys
           (UseRequired.setRequired "a" UseRequired.emptyHandler
              UseRequired.initialState)
           (UseRequired.mkAction UseRequired.ADD "b" UseRequired.emptyHandler)
           "a").
  vm_compute. by eexists.
Defined.

(** ** Seeding through the wrapper (context.tsx) *)

(** X23. With the default projector, a field whose initial-state key holds
    a truthy value is seeded with that value as its state and as its meta:
    both readers return it, the committed state and meta are untouched, and
    [stateChanged] is false. *)
Theorem default_seeding (props : Context.FieldProps) (init : Dict)
    (s : UseState.FormState) (v : JsVal) :
  init !! Context.initialStateKey props = Some v → truthy v = true →
  let s' := Context.seedEffect Context.defaultSetInitialState props init s in
  UseState.getComponentState s' (Context.stateKey props) = v ∧
  UseState.getComponentMeta s' (Context.stateKey props) = v ∧
  UseState.formState s' = UseState.formState s ∧
  UseState.formMeta s' = UseState.formMeta s ∧
  UseState.stateChanged s' = false.
Proof.
  intros Hinit Hv. cbn zeta.
  unfold Context.seedEffect, Context.defaultSetInitialState,
    UseState.getComponentState, UseState.getComponentMeta. cbn.
  rewrite initialSetter_eq, (prop_lookup _ _ _ Hinit). cbn. rewrite Hv. cbn.
  unfold prop. by rewrite !lookup_insert_eq.
Qed.

Lemma default_seeding_witness :
  UseState.getComponentState seededStore "email" = VStr "a@b.com" ∧
  UseState.getComponentMeta seededStore "email" = VStr "a@b.com" ∧
  UseState.formState seededStore = UseState.formState UseState.initialState ∧
  UseState.formMeta seededStore = UseState.formMeta UseState.initialState ∧
  UseState.stateChanged seededStore = false.
Proof.
  apply (default_seeding emailField editInitialState UseState.initialState
           (VStr "a@b.com")); reflexivity.
Defined.

Lemma renders_store (n : nat) (cb : option Context.SetInitialState)
    (props : Context.FieldProps) (init : Dict) (m : Context.Mounted) :
  (∀ f s, cb = Some f → Context.seedEffect f props init s = s) →
  Context.store (Context.renders n cb props init m) = Context.store m.
Proof.
  intros Hid. revert m. induction n as [|n IH]; intros m; [done|].
  cbn [Context.renders]. rewrite IH. unfold Context.render.
  destruct cb as [f|]; [|done].
  destruct (_ && _); [|done]. destruct (Context.depsChanged _ _); [|done].
  cbn. by apply Hid.
Qed.

(** X24. Create mode: when what the initial state gives at the field's
    initial-state key is falsy (the key is absent and names no member of
    [Object.prototype], or it holds a falsy value), the default projector
    seeds nothing, so no number of renders changes the store,
    [stateChanged] included. *)
Theorem create_mode_seeds_nothing (n : nat) (props : Context.FieldProps)
    (init : Dict) (s : UseState.FormState) :
  truthy (prop init (Context.initialStateKey props)) = false →
  Context.seedEffect Context.defaultSetInitialState props init s = s ∧
  Context.store
    (Context.renders n (Some Context.defaultSetInitialState) props init
       (Context.mount s)) = s.
Proof.
  intros Hinit.
  assert (∀ s', Context.seedEffect Context.defaultSetInitialState props init s'
                = s') as Hid.
  { intros s'. unfold Context.seedEffect, Context.defaultSetInitialState.
    cbn. by apply initialSetter_falsy. }
  split; [apply Hid|]. rewrite renders_store; [done|].
  by intros f s' [= <-].
Qed.

Lemma create_mode_seeds_nothing_witness :
  let edited := UseState.setFormState "name" (VStr "x") VUndefined
                  UseState.initialState in
  Context.seedEffect Context.defaultSetInitialState emailField ∅ edited
    = edited ∧
  Context.store
    (Context.renders 3 (Some Context.defaultSetInitialState) emailField ∅
       (Context.mount edited)) = edited.
Proof.
  apply (create_mode_seeds_nothing 3 emailField ∅
           (UseState.setFormState "name" (VStr "x") VUndefined
              UseState.initialState)).
  reflexivity.
Defined.

(** An initial-state key that names a member of [Object.prototype] is never
    absent: with the empty initial state, the default projector seeds the
    inherited member. *)
Example inherited_initial_value_is_seeded :
  UseState.getComponentState
    (Context.seedEffect Context.defaultSetInitialState
       {| Context.stateKey := "owner"; Context.initialStateKey := "constructor" |}
       ∅ UseState.initialState) "owner" = VBuiltin "constructor".
Proof. vm_compute. reflexivity. Qed.

(** X25. A wrapped field whose seeding callback is not a function, or
    whose [initialStateKey] or [stateKey] is empty, registers no effect: no
    number of renders changes the store or runs a seeding. *)
Theorem render_guard (n : nat) (cb : option Context.SetInitialState)
    (props : Context.FieldProps) (init : Dict) (m : Context.Mounted) :
  cb = None ∨ Context.initialStateKey props = ""
    ∨ Context.stateKey props = "" →
  Context.renders n cb props init m = m.
Proof.
  intros Hguard. apply renders_fixed. unfold Context.render.
  destruct cb as [f|]; [|done].
  destruct Hguard as [?|[->| ->]]; [done| |]; cbn; [done|].
  by rewrite andb_false_r.
Qed.

Lemma render_guard_witness :
  Context.renders 2 (Some Context.defaultSetInitialState)
    {| Context.stateKey := "email"; Context.initialStateKey := "" |}
    editInitialState (Context.mount UseState.initialState)
  = Context.mount UseState.initialState.
Proof.
  apply (render_guard 2 (Some Context.defaultSetInitialState)
           {| Context.stateKey := "email"; Context.initialStateKey := "" |}
           editInitialState (Context.mount UseState.initialState)).
  right. left. reflexivity.
Defined.

(** X26. A write to another field does not run the seeding of a mounted
    field again: after the first render of the field [k], a
    [setFormState] at a key [j ≠ k] followed by any number of renders
    leaves the store as the write left it. *)
Theorem other_field_write_keeps_seeding (n : nat) (f : Context.SetInitialState)
    (props : Context.FieldProps) (init : Dict) (s : UseState.FormState)
    (j : string) (st mt : JsVal) :
  j ≠ Context.stateKey props →
  let first := Context.render (Some f) props init (Context.mount s) in
  let edited := Context.written (UseState.setFormState j st mt) first in
  Context.renders n (Some f) props init edited = edited.
Proof.
  intros Hne. cbn zeta. apply renders_fixed. rewrite render_mount.
  destruct (_ && _) eqn:Hguard.
  - apply render_same_deps. cbn. f_equal.
    unfold UseState.seedDeps, prop, Context.seedEffect.
    rewrite setFormState_eq, initialSetter_eq. cbn.
    destruct (truthy st); [|done]. by rewrite lookup_insert_ne.
  - unfold Context.render. by rewrite Hguard.
Qed.

Lemma other_field_write_keeps_seeding_witness :
  let first :=
    Context.render (Some Context.defaultSetInitialState) emailField
      editInitialState (Context.mount UseState.initialState) in
  let edited :=
    Context.written (UseState.setFormState "name" (VStr "x") VUndefined) first in
  Context.renders 2 (Some Context.defaultSetInitialState) emailField
    editInitialState edited = edited.
Proof.
  apply (other_field_write_keeps_seeding 2 Context.defaultSetInitialState
           emailField editInitialState UseState.initialState "name"
           (VStr "x") VUndefined).
  discriminate.
Defined.

(** ** The update guard (context.tsx) *)

Lemma Object_is_iff (a b : JsVal) : Object_is a b = true ↔ a = b.
Proof.
  split; [|intros ->; apply Object_is_refl].
  destruct a, b; cbn; try discriminate; try done.
  - intros H. f_equal. by destruct b, b0.
  - intros H%Z.eqb_eq. by subst.
  - intros H%String.eqb_eq. by subst.
  - intros H%Nat.eqb_eq. by subst.
  - intros H%String.eqb_eq. by subst.
Qed.

Lemma strict_equal_iff (a b : JsVal) :
  strict_equal a b = true ↔ a = b ∧ a ≠ VNaN.
Proof.
  split.
  - intros H. assert (a ≠ VNaN) as Hnan.
    { intros ->. by destruct b. }
    split; [|done]. apply Object_is_iff. by destruct a, b.
  - intros [-> Hnan].
    destruct b; try (by apply (Object_is_refl _)). by destruct Hnan.
Qed.

(** X27. With [defaultShouldUpdate], the comparator that [memoize] gives to
    [React.memo] returns true exactly when the old and the new props have
    the same state, error, loading flag and missing flag, and the state is
    neither [undefined] nor [NaN]; a field whose state is [undefined] is
    never reported as unchanged. *)
Theorem defaultShouldUpdate_true_iff (oldProps newProps : Memo.ComponentProps) :
  Memo.memoize (Some Memo.defaultShouldUpdate) oldProps newProps = true
  ↔ Memo.componentState newProps = Memo.componentState oldProps
    ∧ Memo.componentState oldProps ≠ VUndefined
    ∧ Memo.componentState oldProps ≠ VNaN
    ∧ Memo.componentError newProps = Memo.componentError oldProps
    ∧ Memo.componentError oldProps ≠ VNaN
    ∧ Memo.isLoading newProps = Memo.isLoading oldProps
    ∧ Memo.isMissing newProps = Memo.isMissing oldProps.
Proof.
  unfold Memo.memoize, Memo.defaultShouldUpdate.
  destruct oldProps as [os oe ol om], newProps as [ns ne nl nm]. cbn.
  destruct (strict_equal ns VUndefined && strict_equal os VUndefined) eqn:Hu.
  - apply andb_prop in Hu as [_ Ho]. apply strict_equal_iff in Ho as [-> _].
    split; [discriminate|]. by intros (_ & ? & _).
  - rewrite !andb_true_iff, !strict_equal_iff, !Bool.eqb_true_iff. split.
    + intros ((([Hs Hsn] & [He Hen]) & Hl) & Hm). subst ns ne nl nm.
      repeat split; try done. intros ->. discriminate Hu.
    + intros (-> & Hs & Hn & -> & He & -> & ->). done.
Qed.

(** ** The submit event (index.tsx) *)

(** X28. The [formLoading] flag of a submit event is true exactly when
    some field is in the loading store or the [loading] prop of the form is
    true; an undefined [loading] prop counts as false. *)
Theorem onButtonClick_formLoading (props : Form.FormProps) (st : Form.Stores)
    (buttonID : option string) (data : option Dict) (ev : Form.FormEvent) :
  Form.onButtonClick props st buttonID data = Some ev →
  (Form.formLoading (Form.state ev) = true
   ↔ (∃ k b, Form.stFormLoading st !! k = Some b)
     ∨ Form.loading props = Some true).
Proof.
  unfold Form.onButtonClick. destruct (Form.hasOnButtonClick props); [|done].
  intros [= <-]. cbn. unfold Form.loadingOf.
  destruct (UseLoading.formLoading (Form.stFormLoading st)) eqn:Hbusy.
  - split; [|done]. intros _. left.
    apply formLoading_iff, map_choose in Hbusy. done.
  - assert (Form.stFormLoading st = ∅) as Hempty.
    { destruct (map_choose_or_empty (Form.stFormLoading st))
        as [(k & b & Hk)|?]; [|done].
      assert (UseLoading.formLoading (Form.stFormLoading st) = true) as Habs.
      { apply formLoading_iff. intros He. by rewrite He, lookup_empty in Hk. }
      by rewrite Habs in Hbusy. }
    split.
    + intros H. right. by destruct (Form.loading props) as [[|]|].
    + intros [(k & b & Hk)| ->]; [|done].
      by rewrite Hempty, lookup_empty in Hk.
Qed.

Lemma onButtonClick_formLoading_witness :
  Form.formLoading
    (Form.state
       {| Form.id := "save"; Form.type := Form.buttonClick;
          Form.state :=
            {| Form.displayMeta := ∅; Form.formMeta := ∅;
               Form.displayState := ∅; Form.formLoading := true;
               Form.formMounting := false; Form.formState := ∅;
               Form.eventInitialState := ∅; Form.stateChanged := false |};
          Form.errors := {| Form.formErrors := ∅ |};
          Form.buttonData := ∅;
          Form.formRequired :=
            {| Form.required := ∅; Form.anyMissing := false |} |}) = true
  ↔ (∃ k b, UseLoading.enableLoading "a" UseLoading.initialState !! k = Some b)
    ∨ Form.loading Form.defaultProps = Some true.
Proof.
  apply (onButtonClick_formLoading Form.defaultProps
           {| Form.stFormState := UseState.initialState;
              Form.stFormErrors := UseError.initialState;
              Form.stFormLoading :=
                UseLoading.enableLoading "a" UseLoading.initialState;
              Form.stFormMounting := false;
              Form.stRequired := UseRequired.initialState |}
           (Some "save") None).
  vm_compute. reflexivity.
Defined.

(** X29. A submit event is consistent: its [required] has no entry for
    [__proto__]; for every other key its entry is the one of the registered
    handler, evaluated on what the displayed state and the errors that the
    same event carries give at that key; and its [anyMissing] is true
    exactly when one of its [required] entries is missing. *)
Theorem onButtonClick_consistent (props : Form.FormProps) (st : Form.Stores)
    (buttonID : option string) (data : option Dict) (ev : Form.FormEvent) :
  Form.onButtonClick props st buttonID data = Some ev →
  (∀ k, Form.required (Form.formRequired ev) !! k =
          if decide (k = "__proto__") then None
          else
            (fun h =>
               {| UseRequired.msgDisplayMessage := UseRequired.displayMessage h;
                  UseRequired.isMissingNow :=
                    UseRequired.isRequired h
                      (prop (Form.displayState (Form.state ev)) k)
                      (read (Form.formErrors (Form.errors ev)) k) |})
            <$> Form.stRequired st !! k) ∧
  (Form.anyMissing (Form.formRequired ev) = true
   ↔ ∃ k m, Form.required (Form.formRequired ev) !! k = Some m
            ∧ UseRequired.isMissingNow m = true).
Proof.
  unfold Form.onButtonClick. destruct (Form.hasOnButtonClick props); [|done].
  intros [= <-]. cbn. split.
  - intros k. by rewrite getFormRequired_lookup.
  - apply anyMissing_iff_message.
Qed.

Lemma onButtonClick_consistent_witness :
  ∃ ev : Form.FormEvent,
    Form.onButtonClick Form.defaultProps (submitStores VUndefined) None None
      = Some ev ∧
    (∀ k, Form.required (Form.formRequired ev) !! k =
            if decide (k = "__proto__") then None
            else
              (fun h =>
                 {| UseRequired.msgDisplayMessage :=
                      UseRequired.displayMessage h;
                    UseRequired.isMissingNow :=
                      UseRequired.isRequired h
                        (prop (Form.displayState (Form.state ev)) k)
                        (read (Form.formErrors (Form.errors ev)) k) |})
              <$> Form.stRequired (submitStores VUndefined) !! k) ∧
    (Form.anyMissing (Form.formRequired ev) = true
     ↔ ∃ k m, Form.required (Form.formRequired ev) !! k = Some m
              ∧ UseRequired.isMissingNow m = true).
Proof.
  eexists. split; [reflexivity|].
  apply (onButtonClick_consistent Form.defaultProps (submitStores VUndefined)
           None None).
  reflexivity.
Defined.
